(** * The forward longitudinal vehicle model of Longitudinal_Vehicle_Model.ipynb

    The notebook defines class [Vehicle] (cells 2 and 4: [__init__], [reset],
    [step]) and drives it through a two-slope scenario (cell 7).

    The Python code is duck-typed over its numbers: the constructor stores
    ints and floats, [np.sin] returns numpy.float64, and every arithmetic
    operator works on all of them.  The model is therefore written once, over
    an interface of the operators the code uses ([PyNum]) and of the numpy
    functions it calls ([Libm]), and is read at two instances:

    - [RealNumbers]: the real numbers.  The formulas of the design document
      are stated over the reals; the algebraic properties of a completed call
      are proved at this instance ([Exact]).  It has no inf, no rounding and
      no overflow, so it says nothing about which calls raise.
    - [Binary64Numbers]: IEEE-754 binary64 with round-to-nearest-even, which
      is what Python's float and numpy.float64 compute, with [np.sin] and
      [np.arctan] left as parameters, and with the distinction between Python
      numbers and numpy.float64 scalars that decides whether [/] and [**]
      raise.  Runs of the scenario are evaluated, and the raises of [step] are
      settled, at this instance ([Binary64]).

    What holds at every instance is proved once ([ModelFacts]). *)

From Stdlib Require Import ZArith List Bool Lia Reals Lra.
From Stdlib Require PrimFloat Uint63 FloatAxioms SpecFloat.
Import ListNotations.

(** ** The numeric interface *)

(** The operators of the source.  [num_truediv] is Python's [/]: [None]
    stands for ZeroDivisionError.  [num_lit n d] is the decimal literal n/d
    (0.35 is [num_lit 35 100]).  [y**2] has two parts: [num_pow2_raises y]
    tells whether it ends in OverflowError (a Python float whose square
    overflows raises at [**]; a Python int raises at the product that turns
    its square into a float; a numpy.float64 gives inf), and [num_pow2 y] is
    its value when it does not.  [num_float64] is the conversion a value
    undergoes when it is stored in a numpy float64 array. *)
Class PyNum (T : Type) : Type := {
  num_int : Z -> T;
  num_lit : Z -> Z -> T;
  num_add : T -> T -> T;
  num_sub : T -> T -> T;
  num_mul : T -> T -> T;
  num_truediv : T -> T -> option T;
  num_pow2 : T -> T;
  num_pow2_raises : T -> bool;
  num_abs : T -> T;
  num_lt : T -> T -> bool;
  num_float64 : T -> T
}.

(** numpy's elementary functions used by the notebook. *)
Class Libm (T : Type) : Type := {
  np_sin : T -> T;
  np_arctan : T -> T
}.

Declare Scope py_scope.
Delimit Scope py_scope with py.
Infix "+" := num_add (at level 50, left associativity) : py_scope.
Infix "-" := num_sub (at level 50, left associativity) : py_scope.
Infix "*" := num_mul (at level 40, left associativity) : py_scope.
Infix "<?" := num_lt (at level 70, no associativity) : py_scope.

(** ** Exceptions and outcomes of a mutating call *)

Inductive exn : Type := ZeroDivisionError | OverflowError | IndexError.

(** A call either completes with the mutated state, or raises with the state
    as it stands at the raise (Python does not roll assignments back). *)
Inductive outcome (S : Type) : Type :=
| Done (s : S)
| Raised (e : exn) (s : S).
Arguments Done {S} s.
Arguments Raised {S} e s.

Definition state_after {S : Type} (r : outcome S) : S :=
  match r with Done s => s | Raised _ s => s end.

Definition completed {S : Type} (r : outcome S) : bool :=
  match r with Done _ => true | Raised _ _ => false end.

Definition outcome_map {S : Type} (f : S -> S) (r : outcome S) : outcome S :=
  match r with Done s => Done (f s) | Raised e s => Raised e (f s) end.

(** [attempt e s o k]: continue with the value of [o], or raise [e] in state [s]. *)
Definition attempt {S A : Type} (e : exn) (s : S) (o : option A)
  (k : A -> outcome S) : outcome S :=
  match o with Some y => k y | None => Raised e s end.

Notation "'let/' q := n // d 'raising' self 'in' k" :=
  (attempt ZeroDivisionError self (num_truediv n d) (fun q => k))
  (at level 10, q name, n at level 69, d at level 69, self at level 9,
   k at level 200, only parsing) : py_scope.

(** [y ** 2]: [None] stands for OverflowError. *)
Definition py_pow2 {T : Type} {N : PyNum T} (y : T) : option T :=
  if num_pow2_raises y then None else Some (num_pow2 y).

Notation "'let/' q := y '**2' 'raising' self 'in' k" :=
  (attempt OverflowError self (py_pow2 y) (fun q => k))
  (at level 10, q name, y at level 69, self at level 9,
   k at level 200, only parsing) : py_scope.

(** [for i in range(lo, lo+count): body], stopping at the first raise. *)
Fixpoint for_range_from {S : Type} (lo count : nat)
  (body : nat -> S -> outcome S) (s : S) : outcome S :=
  match count with
  | O => Done s
  | Datatypes.S n =>
      match body lo s with
      | Done s' => for_range_from (Datatypes.S lo) n body s'
      | Raised e s' => Raised e s'
      end
  end.

Definition for_range {S : Type} (lo hi : nat)
  (body : nat -> S -> outcome S) (s : S) : outcome S :=
  for_range_from lo (hi - lo) body s.

Section Model.
Context {T : Type} {N : PyNum T} {L : Libm T}.
Local Open Scope py_scope.

(** ** class Vehicle (cell 2) *)

(** The instance attributes, in the order [__init__] assigns them. *)
Record Vehicle : Type := mkVehicle {
  a_0 : T; a_1 : T; a_2 : T;
  GR : T; r_e : T; J_e : T; m : T; g : T;
  c_a : T; c_r1 : T;
  c : T; F_max : T;
  x : T; v : T; a : T; w_e : T; w_e_dot : T;
  sample_time : T
}.

Definition set_x (self : Vehicle) (y : T) : Vehicle :=
  mkVehicle (a_0 self) (a_1 self) (a_2 self) (GR self) (r_e self) (J_e self)
    (m self) (g self) (c_a self) (c_r1 self) (c self) (F_max self)
    y (v self) (a self) (w_e self) (w_e_dot self) (sample_time self).

Definition set_v (self : Vehicle) (y : T) : Vehicle :=
  mkVehicle (a_0 self) (a_1 self) (a_2 self) (GR self) (r_e self) (J_e self)
    (m self) (g self) (c_a self) (c_r1 self) (c self) (F_max self)
    (x self) y (a self) (w_e self) (w_e_dot self) (sample_time self).

Definition set_a (self : Vehicle) (y : T) : Vehicle :=
  mkVehicle (a_0 self) (a_1 self) (a_2 self) (GR self) (r_e self) (J_e self)
    (m self) (g self) (c_a self) (c_r1 self) (c self) (F_max self)
    (x self) (v self) y (w_e self) (w_e_dot self) (sample_time self).

Definition set_w_e (self : Vehicle) (y : T) : Vehicle :=
  mkVehicle (a_0 self) (a_1 self) (a_2 self) (GR self) (r_e self) (J_e self)
    (m self) (g self) (c_a self) (c_r1 self) (c self) (F_max self)
    (x self) (v self) (a self) y (w_e_dot self) (sample_time self).

Definition set_w_e_dot (self : Vehicle) (y : T) : Vehicle :=
  mkVehicle (a_0 self) (a_1 self) (a_2 self) (GR self) (r_e self) (J_e self)
    (m self) (g self) (c_a self) (c_r1 self) (c self) (F_max self)
    (x self) (v self) (a self) (w_e self) y (sample_time self).

(** [Vehicle()]: the object [__init__] leaves behind. *)
Definition Vehicle_init : Vehicle :=
  {| a_0 := num_int 400;
     a_1 := num_lit 1 10;
     a_2 := num_lit (-2) 10000;
     GR := num_lit 35 100;
     r_e := num_lit 3 10;
     J_e := num_int 10;
     m := num_int 2000;
     g := num_lit 981 100;
     c_a := num_lit 136 100;
     c_r1 := num_lit 1 100;
     c := num_int 10000;
     F_max := num_int 10000;
     x := num_int 0;
     v := num_int 5;
     a := num_int 0;
     w_e := num_int 100;
     w_e_dot := num_int 0;
     sample_time := num_lit 1 100 |}.

Definition reset (self : Vehicle) : Vehicle :=
  let self := set_x self (num_int 0) in
  let self := set_v self (num_int 5) in
  let self := set_a self (num_int 0) in
  let self := set_w_e self (num_int 100) in
  let self := set_w_e_dot self (num_int 0) in
  self.

(** The five state variables and the thirteen parameters of an instance. *)
Definition state_of (self : Vehicle) : T * T * T * T * T :=
  (x self, v self, a self, w_e self, w_e_dot self).

Definition params_of (self : Vehicle) : list T :=
  [a_0 self; a_1 self; a_2 self; GR self; r_e self; J_e self; m self; g self;
   c_a self; c_r1 self; c self; F_max self; sample_time self].

(** ** Vehicle.step (cell 4) *)

Definition step (self : Vehicle) (throttle alpha : T) : outcome Vehicle :=
  let/ v2 := v self **2 raising self in
  let f_aero := c_a self * v2 in
  let r_x := c_r1 self * v self in
  let f_g := m self * g self * np_sin alpha in
  let f_load := f_aero + r_x + f_g in
  let/ w_e2 := w_e self **2 raising self in
  let T_e := throttle * (a_0 self + a_1 self * w_e self + a_2 self * w_e2) in
  let/ q := T_e - GR self * r_e self * f_load // J_e self raising self in
  let self := set_w_e_dot self q in
  let w_w := GR self * w_e self in
  let/ s := w_w * r_e self - v self // v self raising self in
  let F_x := if num_abs s <? num_int 1 then c self * s else F_max self in
  let/ q := F_x - f_load // m self raising self in
  let self := set_a self q in
  let self := set_w_e self (w_e self + w_e_dot self * sample_time self) in
  let self := set_v self (v self + a self * sample_time self) in
  let/ dt2 := sample_time self **2 raising self in
  let self := set_x self
    (x self + (v self * sample_time self - num_lit 5 10 * a self * dt2)) in
  Done self.

(** The locals of [step] as functions of the pre-call object and the inputs,
    written as the source writes them. *)
Definition f_load (self : Vehicle) (alpha : T) : T :=
  c_a self * num_pow2 (v self) + c_r1 self * v self
  + m self * g self * np_sin alpha.

Definition T_e (self : Vehicle) (throttle : T) : T :=
  throttle * (a_0 self + a_1 self * w_e self + a_2 self * num_pow2 (w_e self)).

Definition slip (self : Vehicle) : option T :=
  num_truediv (GR self * w_e self * r_e self - v self) (v self).

Definition F_x (self : Vehicle) : option T :=
  match slip self with
  | Some s => Some (if num_abs s <? num_int 1 then c self * s else F_max self)
  | None => None
  end.

(** A run of calls [model.step(throttle, alpha)], one per input pair. *)
Fixpoint steps (self : Vehicle) (inputs : list (T * T)) : outcome Vehicle :=
  match inputs with
  | [] => Done self
  | (throttle, alpha) :: rest =>
      match step self throttle alpha with
      | Done self' => steps self' rest
      | Raised e self' => Raised e self'
      end
  end.

(** The samples a run of calls passes through: (x, v) before each call and
    after the last one; a raise ends the run. *)
Fixpoint trajectory (self : Vehicle) (inputs : list (T * T)) : list (T * T) :=
  (x self, v self) ::
  match inputs with
  | [] => []
  | (throttle, alpha) :: rest =>
      match step self throttle alpha with
      | Done self' => trajectory self' rest
      | Raised _ _ => []
      end
  end.

(** ** numpy arrays of float64 *)

(** [arr[i]] and [arr[i] = y] for an index in range; [None] stands for
    IndexError. *)
Definition getitem (arr : list T) (i : nat) : option T := nth_error arr i.

Fixpoint setitem (arr : list T) (i : nat) (y : T) : option (list T) :=
  match arr, i with
  | [], _ => None
  | _ :: rest, O => Some (num_float64 y :: rest)
  | h :: rest, Datatypes.S j =>
      match setitem rest j y with
      | Some rest' => Some (h :: rest')
      | None => None
      end
  end.

(** [arr[lo:hi] = y]: a slice is clipped to the array, it never raises. *)
Fixpoint setslice_at (pos : nat) (arr : list T) (lo hi : nat) (y : T) : list T :=
  match arr with
  | [] => []
  | h :: rest =>
      (if (lo <=? pos)%nat && (pos <? hi)%nat then num_float64 y else h)
      :: setslice_at (Datatypes.S pos) rest lo hi y
  end.

Definition setslice (arr : list T) (lo hi : nat) (y : T) : list T :=
  setslice_at 0 arr lo hi y.

(** [np.arange(0, stop, stp)] with [n] entries: entry i is [0 + i*stp]. *)
Definition np_arange (n : nat) (stp : T) : list T :=
  map (fun i => num_float64 (num_int (Z.of_nat i) * stp)) (seq 0 n).

Definition np_zeros_like (arr : list T) : list T :=
  map (fun _ => num_float64 (num_int 0)) arr.

(** ** The two-slope scenario (cell 7) *)

(** The names the cell reads and writes. *)
Record Notebook : Type := mkNotebook {
  model : Vehicle;
  t_data : list T;
  x_data : list T;
  v1_data : list T;
  ti_data : list T
}.

Definition set_model (nb : Notebook) (y : Vehicle) : Notebook :=
  mkNotebook y (t_data nb) (x_data nb) (v1_data nb) (ti_data nb).
Definition set_t_data (nb : Notebook) (y : list T) : Notebook :=
  mkNotebook (model nb) y (x_data nb) (v1_data nb) (ti_data nb).
Definition set_x_data (nb : Notebook) (y : list T) : Notebook :=
  mkNotebook (model nb) (t_data nb) y (v1_data nb) (ti_data nb).
Definition set_v1_data (nb : Notebook) (y : list T) : Notebook :=
  mkNotebook (model nb) (t_data nb) (x_data nb) y (ti_data nb).

Definition and_then {S : Type} (r : outcome S) (k : S -> outcome S) : outcome S :=
  match r with Done s => k s | Raised e s => Raised e s end.

(** [sample_time = 0.01] (cell 5) and [time_end = 20]: [np.arange(0, 20, 0.01)]
    has ceil(20 / 0.01) = 2000 entries. *)
Definition sample_time_global : T := num_lit 1 100.
Definition arange_len : nat := 2000.

(** [t_data[x] = t_data[x-1] + 0.0006] *)
Definition ramp_up (i : nat) (nb : Notebook) : outcome Notebook :=
  attempt IndexError nb (getitem (t_data nb) (i - 1)) (fun prev =>
  attempt IndexError nb (setitem (t_data nb) i (prev + num_lit 6 10000)) (fun arr =>
  Done (set_t_data nb arr))).

(** [t_data[y] = t_data[y-1] - 0.001] *)
Definition ramp_down (i : nat) (nb : Notebook) : outcome Notebook :=
  attempt IndexError nb (getitem (t_data nb) (i - 1)) (fun prev =>
  attempt IndexError nb (setitem (t_data nb) i (prev - num_lit 1 1000)) (fun arr =>
  Done (set_t_data nb arr))).

(** The throttle profile: the statements from [t_data[0]=0.2] to the second loop. *)
Definition throttle_profile (nb : Notebook) : outcome Notebook :=
  attempt IndexError nb (setitem (t_data nb) 0 (num_lit 2 10)) (fun arr =>
  let nb := set_t_data nb arr in
  and_then (for_range 1 500 ramp_up nb) (fun nb =>
  let nb := set_t_data nb (setslice (t_data nb) 500 1501 (num_lit 5 10)) in
  for_range 1501 2000 ramp_down nb)).

(** [model.step(t_data[i], alpha)] *)
Definition model_step (nb : Notebook) (i : nat) (alpha : T) : outcome Notebook :=
  attempt IndexError nb (getitem (t_data nb) i) (fun throttle =>
  match step (model nb) throttle alpha with
  | Done self' => Done (set_model nb self')
  | Raised e self' => Raised e (set_model nb self')
  end).

(** The if / elif / else of the loop body. *)
Definition climb (alpha1 alpha2 : T) (i : nat) (nb : Notebook) : outcome Notebook :=
  if x (model nb) <? num_int 60 then model_step nb i alpha1
  else if x (model nb) <? num_int 150 then model_step nb i alpha2
  else model_step nb i (num_int 0).

(** The body of [for i in range(t_data.shape[0])]. *)
Definition drive_body (alpha1 alpha2 : T) (i : nat) (nb : Notebook) : outcome Notebook :=
  attempt IndexError nb (setitem (v1_data nb) i (v (model nb))) (fun arr =>
  let nb := set_v1_data nb arr in
  attempt IndexError nb (setitem (x_data nb) i (x (model nb))) (fun arr =>
  let nb := set_x_data nb arr in
  climb alpha1 alpha2 i nb)).

(** The arrays the cell creates first, with [model] bound to [model0]. *)
Definition cell7_arrays (model0 : Vehicle) : Notebook :=
  let t_data0 := np_arange arange_len sample_time_global in
  mkNotebook model0 t_data0 (np_zeros_like t_data0) (np_zeros_like t_data0)
    (np_arange arange_len sample_time_global).

(** The whole cell. *)
Definition cell7 (model0 : Vehicle) : outcome Notebook :=
  let nb := cell7_arrays model0 in
  let/ q := num_int 3 // num_int 60 raising nb in
  let alpha1 := np_arctan q in
  let alpha2 := np_arctan (num_lit 1 10) in
  and_then (throttle_profile nb) (fun nb =>
  let nb := set_model nb (reset (model nb)) in
  for_range 0 (length (t_data nb)) (drive_body alpha1 alpha2) nb).

(** The first sample index at which [arr] is not below [level]. *)
Fixpoint first_reaching_from (pos : nat) (level : T) (arr : list T) : option nat :=
  match arr with
  | [] => None
  | h :: rest =>
      if h <? level then first_reaching_from (Datatypes.S pos) level rest
      else Some pos
  end.

Definition first_reaching (level : T) (arr : list T) : option nat :=
  first_reaching_from 0 level arr.

End Model.

Arguments Vehicle T : clear implicits.
Arguments Notebook T : clear implicits.


(** ** Evaluating a scenario from the sines of its angles

    [step] reads [alpha] only through [np_sin alpha].  Reading the model with
    the identity in place of [np_sin] gives the same call as a function of the
    sine; the loop of cell 7 is restated on the three sines it can pass.  The
    equalities with [step] and the loop are proved below. *)

Definition sine_given (T : Type) : Libm T :=
  {| np_sin := fun y => y; np_arctan := fun y => y |}.

Section FromSines.
Context {T : Type} {N : PyNum T}.
Local Open Scope py_scope.

Definition step_sine (self : Vehicle T) (throttle sin_alpha : T) : outcome (Vehicle T) :=
  step (L := sine_given T) self throttle sin_alpha.

(** The loop of cell 7 over the throttles still to come, without the arrays:
    the float64 samples of x and v it would store, and the last object. *)
Fixpoint samples (s1 s2 s0 : T) (self : Vehicle T) (throttles : list T)
  : option (list T * list T * Vehicle T) :=
  match throttles with
  | [] => Some ([], [], self)
  | throttle :: rest =>
      let sin_alpha :=
        if x self <? num_int 60 then s1
        else if x self <? num_int 150 then s2 else s0 in
      match step_sine self throttle sin_alpha with
      | Done self' =>
          match samples s1 s2 s0 self' rest with
          | Some (xs, vs, last) =>
              Some (num_float64 (x self) :: xs, num_float64 (v self) :: vs, last)
          | None => None
          end
      | Raised _ _ => None
      end
  end.

(** The values a ramp loop writes after [y]: each is the stored float64 of the
    one before it, moved by [d]. *)
Fixpoint ramp_values (op : T -> T -> T) (y d : T) (count : nat) : list T :=
  match count with
  | O => []
  | Datatypes.S n =>
      num_float64 (op y d) :: ramp_values op (num_float64 (op y d)) d n
  end.

End FromSines.

(** ** The other cells of the notebook *)

Section OtherCells.
Context {T : Type} {N : PyNum T} {L : Libm T}.
Local Open Scope py_scope.

(** *** The constant-throttle run (cell 5) *)

(** The names the cell binds: [model], [t_data] and [v_data]. *)
Record ConstantRun : Type := mkConstantRun {
  run_model : Vehicle T;
  run_t_data : list T;
  v_data : list T
}.

(** [v_data[i] = model.v] then [model.step(throttle, alpha)]. *)
Definition constant_body (throttle alpha : T) (i : nat) (st : ConstantRun)
  : outcome ConstantRun :=
  attempt IndexError st (setitem (v_data st) i (v (run_model st))) (fun arr =>
  let st := mkConstantRun (run_model st) (run_t_data st) arr in
  match step (run_model st) throttle alpha with
  | Done self' => Done (mkConstantRun self' (run_t_data st) (v_data st))
  | Raised e self' => Raised e (mkConstantRun self' (run_t_data st) (v_data st))
  end).

(** [time_end = 100]: [np.arange(0, 100, 0.01)] has ceil(100 / 0.01) = 10000
    entries. *)
Definition constant_len : nat := 100 * 100.

Definition cell5 : outcome ConstantRun :=
  let model := Vehicle_init in
  let t_data := np_arange constant_len sample_time_global in
  let v_data := np_zeros_like t_data in
  let throttle := num_lit 2 10 in
  let alpha := num_int 0 in
  for_range 0 (length t_data) (constant_body throttle alpha)
    (mkConstantRun model t_data v_data).

(** *** Saving the run (cell 9) *)

(** [np.vstack([t_data, x_data]).T]: one row per sample, two columns; [None]
    stands for the ValueError of stacking arrays of different lengths.  The
    call of [np.savetxt] that follows writes these rows to a file. *)
Definition vstack_T (col1 col2 : list T) : option (list (T * T)) :=
  if (length col1 =? length col2)%nat then Some (combine col1 col2) else None.

Definition cell9 (nb : Notebook T) : option (list (T * T)) :=
  vstack_T (t_data nb) (x_data nb).

(** *** Zero inputs after a reset (cell 11) *)

(** [model.step(0,0)] *)
Definition coast_body (i : nat) (nb : Notebook T) : outcome (Notebook T) :=
  match step (model nb) (num_int 0) (num_int 0) with
  | Done self' => Done (set_model nb self')
  | Raised e self' => Raised e (set_model nb self')
  end.

(** [model.reset()] and the loop over [range(t_data.shape[0])]; the plotting
    calls after the loop are left out. *)
Definition cell11 (nb : Notebook T) : outcome (Notebook T) :=
  let nb := set_model nb (reset (model nb)) in
  for_range 0 (length (t_data nb)) coast_body nb.

End OtherCells.

Arguments ConstantRun T : clear implicits.

(** ** The exact instance: real numbers *)

(** Exact arithmetic.  [/] raises on a zero divisor, as it does between
    Python numbers, and [**] never overflows: the statements proved at this
    instance assume the divisors different from 0 and are about the values a
    completed call computes.  When the program raises is a matter of the
    binary64 instance, where a numpy.float64 operand turns the raise into
    inf or nan. *)
Module RealNumbers.
Local Open Scope R_scope.

#[export] Instance RNum : PyNum R := {
  num_int z := IZR z;
  num_lit n d := IZR n / IZR d;
  num_add := Rplus;
  num_sub := Rminus;
  num_mul := Rmult;
  num_truediv y z := if Req_dec_T z 0 then None else Some (y / z);
  num_pow2 y := y * y;
  num_pow2_raises _ := false;
  num_abs := Rabs;
  num_lt y z := if Rlt_dec y z then true else false;
  num_float64 y := y
}.

#[export] Instance RLibm : Libm R := {
  np_sin := sin;
  np_arctan := atan
}.

End RealNumbers.

(** ** The binary64 instance *)

Module Binary64Numbers.
Import PrimFloat.

(** A Python number as binary64, with the one distinction the operators make:
    a numpy.float64 scalar divides by zero to inf or nan (with a warning),
    a Python int or float raises ZeroDivisionError.  An operator returns
    numpy.float64 as soon as one operand is one.  The ints of the source are
    small enough to be exact in binary64. *)
Record pyfloat : Type := mk_pyfloat { is_numpy : bool; bits : float }.

Definition python (f : float) : pyfloat := mk_pyfloat false f.
Definition numpy (f : float) : pyfloat := mk_pyfloat true f.

Definition float_of_Z (z : Z) : float :=
  match z with
  | Z0 => zero
  | Zpos _ => of_uint63 (Uint63.of_Z z)
  | Zneg p => opp (of_uint63 (Uint63.of_Z (Zpos p)))
  end.

Definition lift2 (f : float -> float -> float) (y z : pyfloat) : pyfloat :=
  mk_pyfloat (is_numpy y || is_numpy z) (f (bits y) (bits z)).

Definition is_zero (f : float) : bool := eqb f zero.

(** [y**2] on a Python number ends in OverflowError when [y] is finite and
    its square is not; on a numpy.float64 it gives inf. *)
Definition pow2_overflows (y : pyfloat) : bool :=
  negb (is_numpy y) && is_finite (bits y) && is_infinity (mul (bits y) (bits y)).

(** A decimal literal is the binary64 nearest to it: the correctly rounded
    quotient of its numerator and denominator, both exact.  [y**2] is taken
    as the correctly rounded square: the C library's [pow], which Python and
    numpy call, may return a neighbour of it in the last place. *)
#[export] Instance FNum : PyNum pyfloat := {
  num_int z := python (float_of_Z z);
  num_lit n d := python (div (float_of_Z n) (float_of_Z d));
  num_add := lift2 add;
  num_sub := lift2 sub;
  num_mul := lift2 mul;
  num_truediv y z :=
    if is_zero (bits z) && negb (is_numpy y || is_numpy z) then None
    else Some (lift2 div y z);
  num_pow2 y := lift2 mul y y;
  num_pow2_raises := pow2_overflows;
  num_abs y := mk_pyfloat (is_numpy y) (abs (bits y));
  num_lt y z := ltb (bits y) (bits z);
  num_float64 y := numpy (bits y)
}.

(** The division of the slip ratio raises: v is a zero, and v and the
    factors of the numerator (GR, w_e, r_e) are all Python numbers. *)
Definition slip_raises (self : Vehicle pyfloat) : bool :=
  is_zero (bits (v self)) &&
  negb (is_numpy (GR self) || is_numpy (w_e self) || is_numpy (r_e self)
        || is_numpy (v self)).

(** The binary64 next above and next below, [k] times. *)
Fixpoint ulps_up (k : nat) (f : float) : list float :=
  match k with
  | O => []
  | Datatypes.S j => next_up f :: ulps_up j (next_up f)
  end.

Fixpoint ulps_down (k : nat) (f : float) : list float :=
  match k with
  | O => []
  | Datatypes.S j => next_down f :: ulps_down j (next_down f)
  end.

Definition within_ulps (k : nat) (f : float) : list float :=
  rev (ulps_down k f) ++ f :: ulps_up k f.

(** sin(arctan t) = t / sqrt(1 + t*t), evaluated in binary64: a value within
    a few units in the last place of what [np.sin(np.arctan(t))] returns. *)
Definition sin_arctan (t : float) : float :=
  div t (sqrt (add one (mul t t))).

Definition sin_alpha1_ref : float := sin_arctan (div (float_of_Z 3) (float_of_Z 60)).
Definition sin_alpha2_ref : float := sin_arctan (div (float_of_Z 1) (float_of_Z 10)).

(** Series for sin and arctan, accurate for the small angles of the scenario;
    one concrete [Libm] at which the statements below are evaluated. *)
Definition sin_series (y : float) : float :=
  let y2 := mul y y in
  let t (k : Z) acc := sub one (mul (div y2 (float_of_Z k)) acc) in
  mul y (t 6%Z (t 20%Z (t 42%Z (t 72%Z (t 110%Z one))))).

Definition arctan_series (y : float) : float :=
  let y2 := mul y y in
  let t (n d : Z) acc :=
    sub one (mul (mul y2 (div (float_of_Z n) (float_of_Z d))) acc) in
  mul y (t 1%Z 3%Z (t 3%Z 5%Z (t 5%Z 7%Z (t 7%Z 9%Z (t 9%Z 11%Z
        (t 11%Z 13%Z (t 13%Z 15%Z one))))))).

Definition series_libm : Libm pyfloat :=
  {| np_sin y := numpy (sin_series (bits y));
     np_arctan y := numpy (arctan_series (bits y)) |}.

(** The throttle array cell 7 builds (the value of [throttle_profile], see
    [Binary64.throttle_profile_value]). *)
Definition throttle_values : list pyfloat :=
  Eval vm_compute in
    match throttle_profile (cell7_arrays Vehicle_init) with
    | Done nb => t_data nb
    | Raised _ _ => []
    end.

(** 3/60 as cell 7 computes it, and the sines the scenario may see: every
    binary64 within 4 units in the last place of the reference values. *)
Definition three_sixtieths : pyfloat :=
  python (div (float_of_Z 3) (float_of_Z 60)).

Definition sin_alpha1_candidates : list pyfloat :=
  map numpy (within_ulps 4 sin_alpha1_ref).
Definition sin_alpha2_candidates : list pyfloat :=
  map numpy (within_ulps 4 sin_alpha2_ref).

(** The samples at which x first reaches 60 and 150, from the sines. *)
Definition crossings (s1 s2 s0 : pyfloat) : option (nat * nat) :=
  match samples s1 s2 s0 Vehicle_init throttle_values with
  | Some (xs, _, _) =>
      match first_reaching (num_int 60) xs, first_reaching (num_int 150) xs with
      | Some i60, Some i150 => Some (i60, i150)
      | _, _ => None
      end
  | None => None
  end.

Definition crosses_at (i60 i150 : nat) (s1 s2 : pyfloat) : bool :=
  match crossings s1 s2 (numpy zero) with
  | Some (i, j) => (i =? i60)%nat && (j =? i150)%nat
  | None => false
  end.

End Binary64Numbers.


(** * Properties *)

(** ** Facts that hold for every reading of the numbers *)

Section ModelFacts.
Context {T : Type} {N : PyNum T} {L : Libm T}.
Local Open Scope py_scope.

Ltac split_outcomes :=
  repeat match goal with
         | |- context [match ?o with _ => _ end] => destruct o
         end.

Lemma step_params (self : Vehicle T) (throttle alpha : T) :
  params_of (state_after (step self throttle alpha)) = params_of self.
Proof. unfold step, attempt. split_outcomes; reflexivity. Qed.

(** What a completed call has computed and stored, at every instance: each
    operator below is the instance's own (rounded, in binary64). *)
Lemma step_Done_fields (self self' : Vehicle T) (throttle alpha : T) :
  step self throttle alpha = Done self' ->
  exists q s q',
    num_truediv (T_e self throttle - GR self * r_e self * f_load self alpha)
      (J_e self) = Some q /\
    slip self = Some s /\
    num_truediv
      ((if num_abs s <? num_int 1 then c self * s else F_max self)
       - f_load self alpha) (m self) = Some q' /\
    w_e_dot self' = q /\
    a self' = q' /\
    w_e self' = w_e self + q * sample_time self /\
    v self' = v self + q' * sample_time self /\
    x self' = x self + (v self' * sample_time self
                        - num_lit 5 10 * q' * num_pow2 (sample_time self)).
Proof.
  unfold step, attempt, py_pow2, slip, T_e, f_load.
  destruct (num_pow2_raises (v self)); [discriminate |].
  destruct (num_pow2_raises (w_e self)); [discriminate |].
  destruct (num_truediv _ (J_e self)) as [q |] eqn:Hq; [| discriminate].
  cbn [set_w_e_dot v GR r_e w_e J_e m c F_max].
  destruct (num_truediv _ (v self)) as [s |] eqn:Hs; [| discriminate].
  destruct (num_truediv _ (m self)) as [q' |] eqn:Hq'; [| discriminate].
  cbn [set_w_e_dot set_a set_w_e set_v sample_time].
  destruct (num_pow2_raises (sample_time self)); [discriminate |].
  intros H. injection H as <-.
  exists q, s, q'.
  split; [reflexivity |]. split; [reflexivity |]. split; [exact Hq' |].
  repeat split.
Qed.

(** How a call can raise, at every instance: at [v**2] or [w_e**2] before
    anything is assigned, at the division by J_e, at the slip ratio or the
    division by m once w_e_dot is assigned, or at [sample_time**2] once
    w_e_dot, a, w_e and v are. *)
Lemma step_Raised_cases (self self' : Vehicle T) (throttle alpha : T) (e : exn) :
  step self throttle alpha = Raised e self' ->
  (e = OverflowError /\ self' = self /\
   (num_pow2_raises (v self) = true \/ num_pow2_raises (w_e self) = true)) \/
  (e = ZeroDivisionError /\ self' = self /\
   num_truediv (T_e self throttle - GR self * r_e self * f_load self alpha)
     (J_e self) = None) \/
  (exists q,
     num_truediv (T_e self throttle - GR self * r_e self * f_load self alpha)
       (J_e self) = Some q /\
     e = ZeroDivisionError /\ self' = set_w_e_dot self q /\
     (slip self = None \/
      exists s,
        slip self = Some s /\
        num_truediv
          ((if num_abs s <? num_int 1 then c self * s else F_max self)
           - f_load self alpha) (m self) = None)) \/
  (exists q s q',
     num_truediv (T_e self throttle - GR self * r_e self * f_load self alpha)
       (J_e self) = Some q /\
     slip self = Some s /\
     num_truediv
       ((if num_abs s <? num_int 1 then c self * s else F_max self)
        - f_load self alpha) (m self) = Some q' /\
     e = OverflowError /\ num_pow2_raises (sample_time self) = true /\
     self' = set_v (set_w_e (set_a (set_w_e_dot self q) q')
                      (w_e self + q * sample_time self))
               (v self + q' * sample_time self)).
Proof.
  unfold step, attempt, py_pow2, slip, T_e, f_load.
  destruct (num_pow2_raises (v self)) eqn:Hov.
  { intros H. injection H as <- <-. left. repeat split. left. reflexivity. }
  destruct (num_pow2_raises (w_e self)) eqn:How.
  { intros H. injection H as <- <-. left. repeat split. right. reflexivity. }
  destruct (num_truediv _ (J_e self)) as [q |] eqn:Hq.
  2:{ intros H. injection H as <- <-. right. left. repeat split. }
  cbn [set_w_e_dot v GR r_e w_e J_e m c F_max].
  destruct (num_truediv _ (v self)) as [s |] eqn:Hs.
  2:{ intros H. injection H as <- <-. right. right. left.
      exists q. repeat split. left. reflexivity. }
  destruct (num_truediv _ (m self)) as [q' |] eqn:Hq'.
  2:{ intros H. injection H as <- <-. right. right. left.
      exists q. repeat split. right. exists s. split; [reflexivity | exact Hq']. }
  cbn [set_w_e_dot set_a set_w_e set_v sample_time].
  destruct (num_pow2_raises (sample_time self)) eqn:Hdt; [| discriminate].
  intros H. injection H as <- <-. right. right. right.
  exists q, s, q'. split; [reflexivity |]. split; [reflexivity |].
  split; [exact Hq' |]. repeat split.
Qed.

(** A completed call has met no raise. *)
Lemma step_Done_clean (self self' : Vehicle T) (throttle alpha : T) :
  step self throttle alpha = Done self' ->
  num_pow2_raises (v self) = false /\
  num_pow2_raises (w_e self) = false /\
  num_pow2_raises (sample_time self) = false /\
  exists s, slip self = Some s.
Proof.
  unfold step, attempt, py_pow2, slip.
  destruct (num_pow2_raises (v self)); [discriminate |].
  destruct (num_pow2_raises (w_e self)); [discriminate |].
  destruct (num_truediv _ (J_e self)) as [q |]; [| discriminate].
  cbn [set_w_e_dot v GR r_e w_e J_e m c F_max].
  destruct (num_truediv _ (v self)) as [s |]; [| discriminate].
  destruct (num_truediv _ (m self)) as [q' |]; [| discriminate].
  cbn [set_w_e_dot set_a set_w_e set_v sample_time].
  destruct (num_pow2_raises (sample_time self)); [discriminate |].
  intros _. repeat split. now exists s.
Qed.

(** A raise at the slip ratio keeps everything but w_e_dot. *)
Lemma step_slip_None (self : Vehicle T) (throttle alpha : T) (q : T) :
  num_pow2_raises (v self) = false ->
  num_pow2_raises (w_e self) = false ->
  num_truediv (T_e self throttle - GR self * r_e self * f_load self alpha)
    (J_e self) = Some q ->
  slip self = None ->
  step self throttle alpha = Raised ZeroDivisionError (set_w_e_dot self q).
Proof.
  unfold step, attempt, py_pow2, slip, T_e, f_load.
  intros -> -> -> Hs.
  cbn [set_w_e_dot v GR r_e w_e J_e m c F_max].
  rewrite Hs. reflexivity.
Qed.

(** When none of them does, the call completes. *)
Lemma step_Done_when (self : Vehicle T) (throttle alpha : T) (q s q' : T) :
  num_pow2_raises (v self) = false ->
  num_pow2_raises (w_e self) = false ->
  num_truediv (T_e self throttle - GR self * r_e self * f_load self alpha)
    (J_e self) = Some q ->
  slip self = Some s ->
  num_truediv
    ((if num_abs s <? num_int 1 then c self * s else F_max self)
     - f_load self alpha) (m self) = Some q' ->
  num_pow2_raises (sample_time self) = false ->
  exists self', step self throttle alpha = Done self'.
Proof.
  unfold step, attempt, py_pow2, slip, T_e, f_load.
  intros -> -> -> Hs Hq' Hdt.
  cbn [set_w_e_dot v GR r_e w_e J_e m c F_max].
  rewrite Hs, Hq'.
  cbn [set_w_e_dot set_a set_w_e set_v sample_time].
  rewrite Hdt. eexists. reflexivity.
Qed.

Lemma steps_params (inputs : list (T * T)) :
  forall self, params_of (state_after (steps self inputs)) = params_of self.
Proof.
  induction inputs as [| [throttle alpha] rest IH]; intros self; simpl.
  - reflexivity.
  - pose proof (step_params self throttle alpha) as Hp.
    destruct (step self throttle alpha) as [self' | e self']; simpl in Hp |- *.
    + now rewrite IH.
    + exact Hp.
Qed.

Lemma reset_constructed (self : Vehicle T) :
  params_of self = params_of Vehicle_init -> reset self = Vehicle_init.
Proof.
  destruct self. unfold params_of, reset, Vehicle_init. simpl.
  intros H. injection H as -> -> -> -> -> -> -> -> -> -> -> -> ->.
  reflexivity.
Qed.

(** C6: after any finite sequence of step calls (completed, or cut short by a
    raise), reset() puts (x, v, a, w_e, w_e_dot) back to (0, 5, 0, 100, 0),
    the object is again equal to a freshly constructed one, reset changes no
    parameter field of any object, and a second reset changes nothing. *)
Theorem C6_reset_restores_initial_state (inputs : list (T * T)) (any : Vehicle T) :
  let self := state_after (steps Vehicle_init inputs) in
  state_of (reset self)
    = (num_int 0, num_int 5, num_int 0, num_int 100, num_int 0) /\
  reset self = Vehicle_init /\
  params_of (reset any) = params_of any /\
  state_of (reset any) = state_of Vehicle_init /\
  reset (reset any) = reset any.
Proof.
  cbv zeta. repeat split.
  apply reset_constructed, steps_params.
Qed.

Lemma nth_error_eq_upto (A : Type) (l1 l2 : list A) :
  length l1 = length l2 ->
  (forall i, (i < length l1)%nat -> nth_error l1 i = nth_error l2 i) ->
  l1 = l2.
Proof.
  revert l2. induction l1 as [| h1 t1 IH]; intros [| h2 t2] Hlen Hnth;
    try discriminate; [reflexivity |].
  simpl in Hlen. f_equal.
  - specialize (Hnth O (Nat.lt_0_succ _)). simpl in Hnth. congruence.
  - apply IH; [lia |]. intros i Hi. apply (Hnth (Datatypes.S i)). simpl. lia.
Qed.

(** C7: two runs from the default initial state that are given the same N
    inputs, one by one, end in the same outcome and pass through the same
    (x, v) samples. *)
Theorem C7_step_deterministic (inputs1 inputs2 : list (T * T)) :
  length inputs1 = length inputs2 ->
  (forall i, (i < length inputs1)%nat ->
             nth_error inputs1 i = nth_error inputs2 i) ->
  steps Vehicle_init inputs1 = steps Vehicle_init inputs2 /\
  trajectory Vehicle_init inputs1 = trajectory Vehicle_init inputs2.
Proof.
  intros Hlen Hnth.
  rewrite (nth_error_eq_upto _ _ _ Hlen Hnth). split; reflexivity.
Qed.

(** *** Array accesses at the end of a known prefix *)

Lemma getitem_at (pre : list T) (h : T) (post : list T) (i : nat) :
  i = length pre -> getitem (pre ++ h :: post) i = Some h.
Proof.
  intros ->. unfold getitem.
  induction pre as [| p pre IH]; simpl; [reflexivity | exact IH].
Qed.

Lemma setitem_at (pre : list T) (h : T) (post : list T) (i : nat) (y : T) :
  i = length pre ->
  setitem (pre ++ h :: post) i y = Some (pre ++ num_float64 y :: post).
Proof.
  intros ->. induction pre as [| p pre IH]; simpl; [reflexivity | now rewrite IH].
Qed.

Lemma app_snoc (A : Type) (pre : list A) (h : A) (post : list A) :
  pre ++ h :: post = (pre ++ [h]) ++ post.
Proof. now rewrite <- app_assoc. Qed.

Lemma length_snoc (A : Type) (pre : list A) (h : A) :
  length (pre ++ [h]) = Datatypes.S (length pre).
Proof. rewrite length_app. simpl. lia. Qed.

(** *** The ramp loops of the throttle profile *)

Lemma ramp_loop (op : T -> T -> T) (d : T)
  (body : nat -> Notebook T -> outcome (Notebook T)) :
  (forall i nb,
     body i nb =
     attempt IndexError nb (getitem (t_data nb) (i - 1)) (fun prev =>
     attempt IndexError nb (setitem (t_data nb) i (op prev d)) (fun arr =>
     Done (set_t_data nb arr)))) ->
  forall count lo pre last post nb,
    lo = Datatypes.S (length pre) ->
    t_data nb = pre ++ last :: post ->
    (count <= length post)%nat ->
    for_range_from lo count body nb
    = Done (set_t_data nb
              (pre ++ last :: ramp_values op last d count ++ skipn count post)).
Proof.
  intros Hbody.
  induction count as [| n IH]; intros lo pre last post nb Hlo Ht Hlen.
  - simpl. rewrite <- Ht. now destruct nb.
  - destruct post as [| h post']; [simpl in Hlen; lia |].
    cbn [for_range_from]. rewrite Hbody, Ht.
    rewrite (getitem_at pre last (h :: post')) by lia.
    cbn [attempt].
    rewrite (app_snoc _ pre last (h :: post')).
    rewrite (setitem_at (pre ++ [last]) h post')
      by (rewrite length_snoc; exact Hlo).
    cbn [attempt].
    rewrite (IH (Datatypes.S lo) (pre ++ [last]) (num_float64 (op last d)) post');
      [ | rewrite length_snoc; lia | reflexivity | simpl in Hlen; lia ].
    f_equal. unfold set_t_data. cbn [model x_data v1_data ti_data].
    f_equal. rewrite <- app_assoc. reflexivity.
Qed.

Lemma ramp_values_length (op : T -> T -> T) (d : T) (count : nat) :
  forall y, length (ramp_values op y d count) = count.
Proof. induction count as [| n IH]; intros y; simpl; [reflexivity | now rewrite IH]. Qed.

(** *** The drive loop stores the samples of [samples] *)

Lemma step_sine_eq (self : Vehicle T) (throttle alpha : T) :
  step self throttle alpha = step_sine self throttle (np_sin alpha).
Proof. reflexivity. Qed.

(** The if / elif / else of the loop body is one call on the sine it selects. *)
Lemma climb_sine (alpha1 alpha2 : T) (i : nat) (nb : Notebook T) (throttle : T) :
  getitem (t_data nb) i = Some throttle ->
  climb alpha1 alpha2 i nb =
  match step_sine (model nb) throttle
          (if x (model nb) <? num_int 60 then np_sin alpha1
           else if x (model nb) <? num_int 150 then np_sin alpha2
           else np_sin (num_int 0)) with
  | Done self' => Done (set_model nb self')
  | Raised e self' => Raised e (set_model nb self')
  end.
Proof.
  intros Hget. unfold climb, model_step. rewrite Hget. cbn [attempt].
  rewrite !step_sine_eq.
  destruct (x (model nb) <? num_int 60); [reflexivity |].
  destruct (x (model nb) <? num_int 150); reflexivity.
Qed.

Lemma drive_loop (alpha1 alpha2 : T) (tid : list T) :
  forall throttles lo pt px rx pv rv self xs vs last,
    lo = length pt -> length px = lo -> length pv = lo ->
    length rx = length throttles -> length rv = length throttles ->
    samples (np_sin alpha1) (np_sin alpha2) (np_sin (num_int 0)) self throttles
    = Some (xs, vs, last) ->
    for_range_from lo (length throttles) (drive_body alpha1 alpha2)
      (mkNotebook self (pt ++ throttles) (px ++ rx) (pv ++ rv) tid)
    = Done (mkNotebook last (pt ++ throttles) (px ++ xs) (pv ++ vs) tid).
Proof.
  induction throttles as [| throttle rest IH];
    intros lo pt px rx pv rv self xs vs last Hlo Hpx Hpv Hrx Hrv Hs.
  - destruct rx; [| discriminate]. destruct rv; [| discriminate].
    simpl in Hs. injection Hs as <- <- <-. reflexivity.
  - destruct rx as [| hx rx]; [discriminate |].
    destruct rv as [| hv rv]; [discriminate |].
    simpl in Hrx, Hrv.
    cbn [samples] in Hs.
    cbn [for_range_from length].
    unfold drive_body at 1.
    cbn [v1_data x_data model set_v1_data set_x_data t_data ti_data].
    rewrite (setitem_at pv hv rv) by congruence. cbn [attempt].
    rewrite (setitem_at px hx rx) by congruence. cbn [attempt].
    rewrite (climb_sine alpha1 alpha2 lo _ throttle)
      by (cbn [t_data]; apply getitem_at; exact Hlo).
    unfold set_model, set_x_data, set_v1_data.
    cbn [model t_data x_data v1_data ti_data].
    destruct (step_sine self throttle _) as [self' | e self']; [| discriminate].
    destruct (samples (np_sin alpha1) (np_sin alpha2) (np_sin (num_int 0)) self' rest)
      as [[[xs' vs'] last'] |] eqn:Hrest; [| discriminate].
    injection Hs as <- <- <-.
    rewrite (app_snoc _ pt throttle), (app_snoc _ px), (app_snoc _ pv).
    rewrite (IH (Datatypes.S lo) (pt ++ [throttle]) (px ++ [num_float64 (x self)]) rx
               (pv ++ [num_float64 (v self)]) rv self' xs' vs' last');
      try (rewrite !length_snoc; lia); try lia; try exact Hrest.
    rewrite <- !app_assoc. reflexivity.
Qed.

(** *** Slice assignment, entry by entry *)

Lemma setslice_at_nth (arr : list T) (lo hi : nat) (y : T) :
  forall pos i,
    nth_error (setslice_at pos arr lo hi y) i =
    match nth_error arr i with
    | Some h =>
        Some (if (lo <=? pos + i)%nat && (pos + i <? hi)%nat
              then num_float64 y else h)
    | None => None
    end.
Proof.
  induction arr as [| h rest IH]; intros pos i.
  - destruct i; reflexivity.
  - destruct i as [| j]; cbn [setslice_at nth_error].
    + now rewrite Nat.add_0_r.
    + rewrite IH. now rewrite <- plus_n_Sm.
Qed.

Lemma setslice_length (arr : list T) (lo hi : nat) (y : T) :
  length (setslice arr lo hi y) = length arr.
Proof.
  unfold setslice. generalize 0%nat.
  induction arr as [| h rest IH]; intros pos; simpl; [reflexivity | now rewrite IH].
Qed.

(** *** [np.arange] and [np.zeros_like] *)

Lemma np_arange_length (n : nat) (stp : T) : length (np_arange n stp) = n.
Proof. unfold np_arange. now rewrite length_map, length_seq. Qed.

Lemma np_arange_nth (n : nat) (stp : T) (i : nat) :
  (i < n)%nat ->
  getitem (np_arange n stp) i
  = Some (num_float64 (num_int (Z.of_nat i) * stp)).
Proof.
  intros Hi. unfold getitem, np_arange.
  rewrite nth_error_map, nth_error_seq.
  destruct (Nat.ltb_spec i n); [reflexivity | lia].
Qed.

Lemma np_zeros_like_length (arr : list T) : length (np_zeros_like arr) = length arr.
Proof. unfold np_zeros_like. now rewrite length_map. Qed.

(** *** The throttle profile does not look at the model *)

Lemma for_range_from_map (S : Type) (f : S -> S)
  (body : nat -> S -> outcome S) :
  (forall i s, body i (f s) = outcome_map f (body i s)) ->
  forall count lo s,
    for_range_from lo count body (f s)
    = outcome_map f (for_range_from lo count body s).
Proof.
  intros Hbody. induction count as [| n IH]; intros lo s; cbn [for_range_from].
  - reflexivity.
  - rewrite Hbody. destruct (body lo s) as [s' | e s']; cbn [outcome_map].
    + apply IH.
    + reflexivity.
Qed.

Lemma ramp_up_model (y : Vehicle T) (i : nat) (nb : Notebook T) :
  ramp_up i (set_model nb y)
  = outcome_map (fun nb => set_model nb y) (ramp_up i nb).
Proof.
  unfold ramp_up, attempt. cbn [t_data set_model].
  destruct (getitem (t_data nb) (i - 1)) as [prev |]; [| reflexivity].
  destruct (setitem (t_data nb) i (prev + num_lit 6 10000)); reflexivity.
Qed.

Lemma ramp_down_model (y : Vehicle T) (i : nat) (nb : Notebook T) :
  ramp_down i (set_model nb y)
  = outcome_map (fun nb => set_model nb y) (ramp_down i nb).
Proof.
  unfold ramp_down, attempt. cbn [t_data set_model].
  destruct (getitem (t_data nb) (i - 1)) as [prev |]; [| reflexivity].
  destruct (setitem (t_data nb) i (prev - num_lit 1 1000)); reflexivity.
Qed.

Lemma throttle_profile_model (y : Vehicle T) (nb : Notebook T) :
  throttle_profile (set_model nb y)
  = outcome_map (fun nb => set_model nb y) (throttle_profile nb).
Proof.
  unfold throttle_profile, attempt. cbn [t_data set_model].
  destruct (setitem (t_data nb) 0 (num_lit 2 10)) as [arr |]; [| reflexivity].
  unfold for_range.
  change (set_t_data (set_model nb y) arr) with (set_model (set_t_data nb arr) y).
  rewrite (for_range_from_map _ (fun nb => set_model nb y) ramp_up (ramp_up_model y)).
  destruct (for_range_from 1 (500 - 1) ramp_up (set_t_data nb arr)) as [nb1 | e nb1];
    cbn [outcome_map and_then]; [| reflexivity].
  change (set_t_data (set_model nb1 y)
            (setslice (t_data (set_model nb1 y)) 500 1501 (num_lit 5 10)))
    with (set_model (set_t_data nb1 (setslice (t_data nb1) 500 1501 (num_lit 5 10))) y).
  apply (for_range_from_map _ (fun nb => set_model nb y) ramp_down (ramp_down_model y)).
Qed.

Lemma throttle_profile_any_model (model0 model1 : Vehicle T) (throttle : list T) :
  throttle_profile (cell7_arrays model0)
  = Done (set_t_data (cell7_arrays model0) throttle) ->
  throttle_profile (cell7_arrays model1)
  = Done (set_t_data (cell7_arrays model1) throttle).
Proof.
  intros H0.
  change (cell7_arrays model1) with (set_model (cell7_arrays model0) model1).
  rewrite throttle_profile_model, H0. reflexivity.
Qed.

(** *** Cell 7, once its division and its throttle profile are known *)

Lemma cell7_unfold (model0 : Vehicle T) (q : T) (throttle : list T) :
  num_truediv (num_int 3) (num_int 60) = Some q ->
  throttle_profile (cell7_arrays model0)
  = Done (set_t_data (cell7_arrays model0) throttle) ->
  cell7 model0
  = for_range 0 (length throttle)
      (drive_body (np_arctan q) (np_arctan (num_lit 1 10)))
      (mkNotebook (reset model0) throttle
         (np_zeros_like (np_arange arange_len sample_time_global))
         (np_zeros_like (np_arange arange_len sample_time_global))
         (np_arange arange_len sample_time_global)).
Proof.
  intros Hq Hprof. unfold cell7, attempt. cbv zeta.
  rewrite Hq, Hprof. reflexivity.
Qed.

Lemma drive_from_start (alpha1 alpha2 : T) (self : Vehicle T)
  (throttle zx zv tid xs vs : list T) (last : Vehicle T) :
  length zx = length throttle -> length zv = length throttle ->
  samples (np_sin alpha1) (np_sin alpha2) (np_sin (num_int 0)) self throttle
  = Some (xs, vs, last) ->
  for_range 0 (length throttle) (drive_body alpha1 alpha2)
    (mkNotebook self throttle zx zv tid)
  = Done (mkNotebook last throttle xs vs tid).
Proof.
  intros Hzx Hzv Hs. unfold for_range. rewrite Nat.sub_0_r.
  exact (drive_loop alpha1 alpha2 tid throttle 0 [] [] zx [] zv self xs vs last
           eq_refl eq_refl eq_refl Hzx Hzv Hs).
Qed.

End ModelFacts.

(** ** The exact reading *)

Module Exact.
Import RealNumbers.
Local Open Scope R_scope.

Lemma truediv_zero (y : R) : num_truediv y 0 = None.
Proof. simpl. destruct (Req_dec_T 0 0) as [_ | H]; [reflexivity | now elim H]. Qed.

Lemma truediv_nonzero (y z : R) : z <> 0 -> num_truediv y z = Some (y / z).
Proof. intros H. simpl. destruct (Req_dec_T z 0) as [E | _]; [now elim H | reflexivity]. Qed.

Lemma lt_true (y z : R) : y < z -> num_lt y z = true.
Proof. intros H. simpl. destruct (Rlt_dec y z); [reflexivity | contradiction]. Qed.

Lemma lt_false (y z : R) : z <= y -> num_lt y z = false.
Proof. intros H. simpl. destruct (Rlt_dec y z); [lra | reflexivity]. Qed.

(** What a completed call leaves behind, field by field. *)
Lemma step_Done (self : Vehicle R) (throttle alpha : R) :
  J_e self <> 0 -> v self <> 0 -> m self <> 0 ->
  exists Fx self',
    F_x self = Some Fx /\
    step self throttle alpha = Done self' /\
    params_of self' = params_of self /\
    w_e_dot self' =
      (T_e self throttle - GR self * r_e self * f_load self alpha) / J_e self /\
    a self' = (Fx - f_load self alpha) / m self /\
    w_e self' = w_e self + w_e_dot self' * sample_time self /\
    v self' = v self + a self' * sample_time self /\
    x self' = x self + (v self' * sample_time self
                        - 0.5 * a self' * (sample_time self * sample_time self)).
Proof.
  intros HJ Hv Hm.
  unfold F_x, slip. rewrite (truediv_nonzero _ _ Hv).
  eexists. eexists. split; [reflexivity |].
  unfold step, attempt, py_pow2; cbn [num_pow2_raises RNum].
  rewrite (truediv_nonzero _ _ HJ).
  cbn [set_w_e_dot v GR r_e w_e J_e m c F_max].
  rewrite (truediv_nonzero _ _ Hv).
  rewrite (truediv_nonzero _ _ Hm).
  split; [reflexivity |].
  cbn [set_x set_v set_w_e set_a set_w_e_dot params_of
       a_0 a_1 a_2 GR r_e J_e m g c_a c_r1 c F_max x v a w_e w_e_dot sample_time].
  unfold T_e, f_load.
  repeat split; cbn; try reflexivity; try lra.
Qed.

(** The slip ratio and the tire force of [step], case by case. *)
Lemma slip_value (self : Vehicle R) :
  v self <> 0 ->
  slip self = Some ((GR self * w_e self * r_e self - v self) / v self).
Proof. intros Hv. unfold slip. now rewrite (truediv_nonzero _ _ Hv). Qed.

Lemma F_x_linear (self : Vehicle R) (s : R) :
  slip self = Some s -> Rabs s < 1 -> F_x self = Some (c self * s).
Proof.
  intros Hs Hlt. unfold F_x. rewrite Hs.
  change (num_lt (num_abs s) (num_int 1)) with (num_lt (Rabs s) 1).
  now rewrite (lt_true _ _ Hlt).
Qed.

Lemma F_x_saturated (self : Vehicle R) (s : R) :
  slip self = Some s -> 1 <= Rabs s -> F_x self = Some (F_max self).
Proof.
  intros Hs Hge. unfold F_x. rewrite Hs.
  change (num_lt (num_abs s) (num_int 1)) with (num_lt (Rabs s) 1).
  now rewrite (lt_false _ _ Hge).
Qed.

(** The constructor's object: its slip ratio, tire force and load. *)
Lemma slip_init : slip (Vehicle_init (T := R)) = Some 1.1.
Proof.
  rewrite slip_value by (cbn; lra).
  f_equal. cbn. lra.
Qed.

Lemma F_x_init : F_x (Vehicle_init (T := R)) = Some 10000.
Proof.
  rewrite (F_x_saturated _ _ slip_init); [reflexivity |].
  rewrite Rabs_right; lra.
Qed.

Lemma f_load_init (alpha : R) :
  f_load Vehicle_init alpha = 34.05 + 19620 * sin alpha.
Proof. unfold f_load. cbn. lra. Qed.

Lemma T_e_init (throttle : R) : T_e Vehicle_init throttle = throttle * 408.
Proof. unfold T_e. cbn. lra. Qed.

(** The first call on the constructor's object, for any inputs. *)
Lemma first_step (throttle alpha : R) :
  exists self',
    step Vehicle_init throttle alpha = Done self' /\
    w_e_dot self' = (throttle * 408 - 0.105 * (34.05 + 19620 * sin alpha)) / 10 /\
    a self' = (10000 - (34.05 + 19620 * sin alpha)) / 2000 /\
    w_e self' = 100 + w_e_dot self' * 0.01 /\
    v self' = 5 + a self' * 0.01 /\
    x self' = 0 + (v self' * 0.01 - 0.5 * a self' * (0.01 * 0.01)).
Proof.
  destruct (step_Done Vehicle_init throttle alpha)
    as (Fx & self' & HFx & Hstep & _ & Hwd & Ha & Hw & Hv & Hx);
    try (cbn; lra).
  rewrite F_x_init in HFx. injection HFx as <-.
  rewrite f_load_init in Hwd, Ha. rewrite T_e_init in Hwd.
  exists self'. split; [exact Hstep |].
  cbn in Hwd, Ha, Hw, Hv, Hx.
  repeat split; try lra.
Qed.


(** *** The throttle profile, entry by entry *)

Lemma ramp_up_nth (d : R) (n : nat) :
  forall y k, (k < n)%nat ->
    nth_error (ramp_values num_add y d n) k = Some (y + d * INR (Datatypes.S k)).
Proof.
  induction n as [| n IH]; intros y k Hk; [lia |].
  destruct k as [| k]; cbn [ramp_values nth_error].
  - f_equal. cbn. lra.
  - rewrite IH by lia. f_equal. rewrite (S_INR (Datatypes.S k)). cbn [num_float64 num_add RNum]. lra.
Qed.

Lemma ramp_down_nth (d : R) (n : nat) :
  forall y k, (k < n)%nat ->
    nth_error (ramp_values num_sub y d n) k = Some (y - d * INR (Datatypes.S k)).
Proof.
  induction n as [| n IH]; intros y k Hk; [lia |].
  destruct k as [| k]; cbn [ramp_values nth_error].
  - f_equal. cbn. lra.
  - rewrite IH by lia. f_equal. rewrite (S_INR (Datatypes.S k)). cbn [num_float64 num_sub RNum]. lra.
Qed.

Lemma throttle_profile_spec (nb : Notebook R) :
  length (t_data nb) = 2000%nat ->
  exists arr,
    throttle_profile nb = Done (set_t_data nb arr) /\
    length arr = 2000%nat /\
    forall i,
      ((i < 500)%nat -> getitem arr i = Some (0.2 + 0.0006 * INR i)) /\
      ((500 <= i <= 1500)%nat -> getitem arr i = Some 0.5) /\
      ((1501 <= i < 2000)%nat ->
       getitem arr i = Some (0.5 - 0.001 * INR (i - 1500))).
Proof.
  intros Hlen.
  destruct (t_data nb) as [| h0 post0] eqn:Ht; [discriminate |].
  assert (Hpost0 : length post0 = 1999%nat) by (simpl in Hlen; lia).
  unfold throttle_profile. rewrite Ht. cbn [setitem attempt].
  unfold for_range.
  rewrite (ramp_loop num_add (num_lit 6 10000) ramp_up (fun i nb => eq_refl)
             (500 - 1) 1 [] (num_float64 (num_lit 2 10)) post0);
    [ | reflexivity | reflexivity | lia ].
  cbn [and_then].
  set (up := [] ++ num_float64 (num_lit 2 10)
             :: ramp_values num_add (num_float64 (num_lit 2 10))
                  (num_lit 6 10000) (500 - 1) ++ skipn (500 - 1) post0).
  assert (Hup_len : length up = 2000%nat).
  { unfold up. cbn [app length]. rewrite length_app, ramp_values_length, length_skipn. lia. }
  assert (Hup : forall i, (i < 500)%nat -> nth_error up i = Some (0.2 + 0.0006 * INR i)).
  { intros i Hi. unfold up. cbn [app]. destruct i as [| k].
    - cbn. f_equal; lra.
    - cbn [nth_error]. rewrite nth_error_app1 by (rewrite ramp_values_length; lia).
      rewrite ramp_up_nth by lia. f_equal; cbn [num_float64 num_lit RNum]; lra. }
  cbn [t_data set_t_data model x_data v1_data ti_data].
  set (sliced := setslice up 500 1501 (num_lit 5 10)).
  assert (Hsl : forall i,
             nth_error sliced i =
             match nth_error up i with
             | Some h => Some (if (500 <=? i)%nat && (i <? 1501)%nat then 0.5 else h)
             | None => None
             end).
  { intros i. unfold sliced, setslice. rewrite setslice_at_nth.
    destruct (nth_error up i); [| reflexivity].
    cbn [Nat.add]. destruct ((500 <=? i)%nat && (i <? 1501)%nat); [| reflexivity].
    f_equal; cbn; lra. }
  assert (Hsl_mid : forall i, (500 <= i <= 1500)%nat -> nth_error sliced i = Some 0.5).
  { intros i Hi. rewrite Hsl.
    destruct (nth_error up i) eqn:Hn.
    - destruct (Nat.leb_spec 500 i); [| lia].
      destruct (Nat.ltb_spec i 1501); [reflexivity | lia].
    - apply nth_error_None in Hn. lia. }
  assert (Hsl_low : forall i, (i < 500)%nat -> nth_error sliced i = Some (0.2 + 0.0006 * INR i)).
  { intros i Hi. rewrite Hsl, (Hup i Hi).
    destruct (Nat.leb_spec 500 i); [lia | reflexivity]. }
  destruct (nth_error_split sliced 1500 (Hsl_mid 1500%nat ltac:(lia)))
    as (pre & post & Hsplit & Hpre).
  assert (Hpost : length post = 499%nat).
  { assert (Hl : length sliced = 2000%nat)
      by (unfold sliced; now rewrite setslice_length).
    rewrite Hsplit, length_app in Hl. simpl in Hl. lia. }
  rewrite (ramp_loop num_sub (num_lit 1 1000) ramp_down (fun i nb => eq_refl)
             (2000 - 1501) 1501 pre 0.5 post);
    [ | lia | exact Hsplit | lia ].
  exists (pre ++ 0.5 :: ramp_values num_sub 0.5 (num_lit 1 1000) (2000 - 1501)
                 ++ skipn (2000 - 1501) post).
  split; [reflexivity |].
  split.
  { rewrite length_app. cbn [length].
    rewrite length_app, ramp_values_length, length_skipn. lia. }
  assert (Hfront : forall i, (i <= 1500)%nat ->
            getitem (pre ++ 0.5 :: ramp_values num_sub 0.5 (num_lit 1 1000) (2000 - 1501)
                       ++ skipn (2000 - 1501) post) i
            = nth_error sliced i).
  { intros i Hi. unfold getitem. rewrite Hsplit.
    destruct (Nat.eq_dec i 1500) as [-> | Hne].
    - rewrite !nth_error_app2 by lia. rewrite Hpre, Nat.sub_diag. reflexivity.
    - rewrite !nth_error_app1 by lia. reflexivity. }
  intros i. split; [| split].
  - intros Hi. rewrite Hfront by lia. apply Hsl_low, Hi.
  - intros Hi. rewrite Hfront by lia. apply Hsl_mid, Hi.
  - intros Hi. unfold getitem.
    rewrite nth_error_app2 by lia. rewrite Hpre.
    replace (i - 1500)%nat with (Datatypes.S (i - 1501)) by lia.
    cbn [nth_error].
    rewrite nth_error_app1 by (rewrite ramp_values_length; lia).
    rewrite ramp_down_nth by lia.
    f_equal; cbn [num_lit RNum]; lra.
Qed.
(** C1 (amended): a completed call updates the velocity first and then the
    position with the just-updated velocity:
    x_new = x_old + v_new*dt - 0.5*a*dt^2 with v_new = v_old + a*dt, which is
    x_old + v_old*dt + 0.5*a*dt^2 in terms of the pre-call velocity. *)
Theorem C1_position_uses_updated_velocity (self : Vehicle R) (throttle alpha : R) :
  J_e self <> 0 -> v self <> 0 -> m self <> 0 ->
  exists self',
    step self throttle alpha = Done self' /\
    v self' = v self + a self' * sample_time self /\
    x self' = x self + v self' * sample_time self
              - 0.5 * a self' * (sample_time self) ^ 2 /\
    x self' = x self + v self * sample_time self
              + 0.5 * a self' * (sample_time self) ^ 2.
Proof.
  intros HJ Hv Hm.
  destruct (step_Done self throttle alpha HJ Hv Hm)
    as (Fx & self' & _ & Hstep & _ & _ & _ & _ & Hv' & Hx').
  exists self'. split; [exact Hstep |]. split; [exact Hv' |].
  rewrite Hx', Hv'. split; nra.
Qed.

Lemma C1_witness :
  exists self',
    step Vehicle_init 0.2 0 = Done self' /\
    v self' = v Vehicle_init + a self' * sample_time Vehicle_init /\
    x self' = x Vehicle_init + v self' * sample_time Vehicle_init
              - 0.5 * a self' * (sample_time Vehicle_init) ^ 2 /\
    x self' = x Vehicle_init + v Vehicle_init * sample_time Vehicle_init
              + 0.5 * a self' * (sample_time Vehicle_init) ^ 2.
Proof.
  apply (C1_position_uses_updated_velocity Vehicle_init 0.2 0); cbn; lra.
Defined.

(** C1 as stated fails on the first call step(0, 0) of a fresh object: the
    position becomes 0.05024914875, while x_old + v_old*dt - 0.5*a*dt^2 is
    0.04975085125. *)
Lemma C1_counterexample :
  exists self',
    step Vehicle_init 0 0 = Done self' /\
    x self' = 0.05024914875 /\
    x Vehicle_init + v Vehicle_init * sample_time Vehicle_init
    - 0.5 * a self' * (sample_time Vehicle_init) ^ 2 = 0.04975085125 /\
    x self' <> x Vehicle_init + v Vehicle_init * sample_time Vehicle_init
               - 0.5 * a self' * (sample_time Vehicle_init) ^ 2.
Proof.
  destruct (first_step 0 0) as (self' & Hstep & _ & Ha & _ & Hv & Hx).
  rewrite sin_0 in Ha.
  exists self'. split; [exact Hstep |].
  cbn. repeat split; lra.
Qed.

(** C2 (amended): step(0, 0) on the default initial state stores the strictly
    positive acceleration 4.982975 (the tire force is F_max = 10000 against a
    load of 34.05) and raises v from 5 to 5.04982975. *)
Theorem C2_no_throttle_first_step_accelerates :
  exists self',
    step Vehicle_init 0 0 = Done self' /\
    a self' = 4.982975 /\ 0 < a self' /\
    v self' = 5.04982975 /\ v Vehicle_init < v self'.
Proof.
  destruct (first_step 0 0) as (self' & Hstep & _ & Ha & _ & Hv & _).
  rewrite sin_0 in Ha.
  exists self'. split; [exact Hstep |].
  cbn. repeat split; lra.
Qed.

(** C2 as stated fails: after step(0, 0) on the default initial state the
    stored acceleration is not negative and v is not below 5. *)
Lemma C2_counterexample :
  exists self',
    step Vehicle_init 0 0 = Done self' /\
    ~ a self' < 0 /\ ~ v self' < v Vehicle_init.
Proof.
  destruct (first_step 0 0) as (self' & Hstep & _ & Ha & _ & Hv & _).
  rewrite sin_0 in Ha.
  exists self'. split; [exact Hstep |].
  cbn. split; lra.
Qed.

(** The stored engine acceleration, whether the call completes or raises at
    the slip ratio or at the division by the mass. *)
Lemma step_w_e_dot (self : Vehicle R) (throttle alpha : R) :
  J_e self <> 0 ->
  w_e_dot (state_after (step self throttle alpha))
  = (T_e self throttle - GR self * r_e self * f_load self alpha) / J_e self.
Proof.
  intros HJ. unfold step, attempt, py_pow2; cbn [num_pow2_raises RNum].
  rewrite (truediv_nonzero _ _ HJ).
  cbn [set_w_e_dot v GR r_e w_e J_e m c F_max].
  destruct (num_truediv _ (v self)) as [s |]; [| reflexivity].
  destruct (num_truediv _ (m self)) as [q |]; reflexivity.
Qed.

(** C5: step computes F_load from the pre-call v, T_e from the pre-call w_e,
    and stores w_e_dot = (T_e - GR*r_e*F_load)/J_e; the acceleration of a
    completed call is taken against the same F_load. *)
Theorem C5_derivatives_from_pre_call_state (self : Vehicle R) (throttle alpha : R) :
  J_e self <> 0 ->
  let F_load := c_a self * (v self) ^ 2 + c_r1 self * v self
                + m self * g self * sin alpha in
  let Te := throttle * (a_0 self + a_1 self * w_e self + a_2 self * (w_e self) ^ 2) in
  f_load self alpha = F_load /\
  T_e self throttle = Te /\
  w_e_dot (state_after (step self throttle alpha))
  = (Te - GR self * r_e self * F_load) / J_e self /\
  (v self <> 0 -> m self <> 0 ->
   exists Fx self',
     F_x self = Some Fx /\
     step self throttle alpha = Done self' /\
     w_e_dot self' = (Te - GR self * r_e self * F_load) / J_e self /\
     a self' = (Fx - F_load) / m self).
Proof.
  intros HJ F_load Te.
  assert (HF : f_load self alpha = F_load) by (unfold f_load, F_load; cbn; ring).
  assert (HT : T_e self throttle = Te) by (unfold T_e, Te; cbn; ring).
  split; [exact HF |]. split; [exact HT |]. split.
  - rewrite (step_w_e_dot self throttle alpha HJ), HF, HT. reflexivity.
  - intros Hv Hm.
    destruct (step_Done self throttle alpha HJ Hv Hm)
      as (Fx & self' & HFx & Hstep & _ & Hwd & Ha & _).
    exists Fx, self'. rewrite <- HF, <- HT. auto.
Qed.

Lemma C5_witness :
  f_load Vehicle_init 0.1 = 1.36 * 5 ^ 2 + 0.01 * 5 + 2000 * 9.81 * sin 0.1 /\
  T_e Vehicle_init 0.2 = 0.2 * (400 + 0.1 * 100 + -0.0002 * 100 ^ 2) /\
  w_e_dot (state_after (step Vehicle_init 0.2 0.1))
  = (0.2 * (400 + 0.1 * 100 + -0.0002 * 100 ^ 2)
     - 0.35 * 0.3 * (1.36 * 5 ^ 2 + 0.01 * 5 + 2000 * 9.81 * sin 0.1)) / 10.
Proof.
  assert (HJ : J_e (Vehicle_init (T := R)) <> 0) by (cbn; lra).
  destruct (C5_derivatives_from_pre_call_state Vehicle_init 0.2 0.1 HJ)
    as (HF & HT & Hwd & _).
  repeat split.
  - rewrite HF. cbn. lra.
  - rewrite HT. cbn. lra.
  - rewrite Hwd. cbn. lra.
Defined.

(** C4: with v different from 0 the tire force of step is c*s while |s| < 1
    and F_max once |s| >= 1, also for s <= -1, where s = (GR*w_e*r_e - v)/v; it
    is the force the stored acceleration is computed from; and with the
    constructor's c = F_max = 10000 the force tends to F_max as s tends to 1
    from below. *)
Theorem C4_tire_force_saturation :
  (forall (self : Vehicle R) (throttle alpha : R),
     v self <> 0 ->
     let s := (GR self * w_e self * r_e self - v self) / v self in
     exists Fx,
       slip self = Some s /\ F_x self = Some Fx /\
       (Rabs s < 1 -> Fx = c self * s) /\
       (1 <= Rabs s -> Fx = F_max self) /\
       (s <= -1 -> Fx = F_max self) /\
       (J_e self <> 0 -> m self <> 0 ->
        exists self',
          step self throttle alpha = Done self' /\
          a self' = (Fx - f_load self alpha) / m self)) /\
  (c (Vehicle_init (T := R)) = 10000 /\ F_max (Vehicle_init (T := R)) = 10000) /\
  (forall eps, 0 < eps ->
   exists delta, 0 < delta /\
     forall (self : Vehicle R) (s : R),
       params_of self = params_of Vehicle_init ->
       slip self = Some s -> 1 - delta < s < 1 ->
       exists Fx,
         F_x self = Some Fx /\ Fx = c self * s /\
         Rabs (Fx - F_max self) < eps).
Proof.
  split; [| split; [split; reflexivity |]].
  - intros self throttle alpha Hv s.
    pose proof (slip_value self Hv) as Hs. fold s in Hs.
    destruct (Rlt_dec (Rabs s) 1) as [Hlt | Hge].
    + exists (c self * s).
      split; [exact Hs |]. split; [exact (F_x_linear self s Hs Hlt) |].
      split; [reflexivity |]. split; [intros; lra |].
      split; [intros Hneg; rewrite Rabs_left in Hlt; lra |].
      intros HJ Hm.
      destruct (step_Done self throttle alpha HJ Hv Hm)
        as (Fx & self' & HFx & Hstep & _ & _ & Ha & _).
      rewrite (F_x_linear self s Hs Hlt) in HFx. injection HFx as <-.
      exists self'. auto.
    + assert (Hge' : 1 <= Rabs s) by lra.
      exists (F_max self).
      split; [exact Hs |]. split; [exact (F_x_saturated self s Hs Hge') |].
      split; [intros; lra |]. split; [reflexivity |].
      split; [reflexivity |].
      intros HJ Hm.
      destruct (step_Done self throttle alpha HJ Hv Hm)
        as (Fx & self' & HFx & Hstep & _ & _ & Ha & _).
      rewrite (F_x_saturated self s Hs Hge') in HFx. injection HFx as <-.
      exists self'. auto.
  - intros eps Heps.
    exists (Rmin 1 (eps / 10000)). split.
    + apply Rmin_glb_lt; lra.
    + intros self s Hp Hs [Hlo Hhi].
      pose proof (Rmin_l 1 (eps / 10000)) as H1.
      pose proof (Rmin_r 1 (eps / 10000)) as H2.
      assert (Hc : c self = 10000 /\ F_max self = 10000).
      { destruct self. unfold params_of in Hp. cbn in Hp.
        injection Hp as _ _ _ _ _ _ _ _ _ _ Hc HF _. cbn. split; assumption. }
      destruct Hc as [Hc HF].
      assert (Hlt : Rabs s < 1) by (rewrite Rabs_right; lra).
      exists (c self * s).
      split; [exact (F_x_linear self s Hs Hlt) |]. split; [reflexivity |].
      rewrite Hc, HF. rewrite Rabs_left; lra.
Qed.

Lemma C4_witness :
  exists Fx,
    slip Vehicle_init
    = Some ((GR Vehicle_init * w_e Vehicle_init * r_e Vehicle_init - v Vehicle_init)
            / v Vehicle_init) /\
    F_x Vehicle_init = Some Fx /\
    (Rabs ((GR Vehicle_init * w_e Vehicle_init * r_e Vehicle_init - v Vehicle_init)
           / v Vehicle_init) < 1 ->
     Fx = c Vehicle_init
          * ((GR Vehicle_init * w_e Vehicle_init * r_e Vehicle_init - v Vehicle_init)
             / v Vehicle_init)) /\
    (1 <= Rabs ((GR Vehicle_init * w_e Vehicle_init * r_e Vehicle_init - v Vehicle_init)
                / v Vehicle_init) ->
     Fx = F_max Vehicle_init) /\
    ((GR Vehicle_init * w_e Vehicle_init * r_e Vehicle_init - v Vehicle_init)
     / v Vehicle_init <= -1 ->
     Fx = F_max Vehicle_init) /\
    (J_e (Vehicle_init (T := R)) <> 0 -> m (Vehicle_init (T := R)) <> 0 ->
     exists self',
       step Vehicle_init 0.2 0 = Done self' /\
       a self' = (Fx - f_load Vehicle_init 0) / m Vehicle_init).
Proof.
  apply (proj1 C4_tire_force_saturation Vehicle_init 0.2 0). cbn. lra.
Defined.

(** C10: the first call after construction, or after reset() on an object
    with the constructor's parameters, has slip ratio
    (0.35*100*0.3 - 5)/5 = 1.1, so its tire force is F_max = 10000 whatever the
    throttle and the incline angle are. *)
Theorem C10_first_step_saturates (self fresh : Vehicle R) (throttle alpha : R) :
  params_of self = params_of Vehicle_init ->
  fresh = Vehicle_init \/ fresh = reset self ->
  slip fresh = Some ((0.35 * 100 * 0.3 - 5) / 5) /\
  (0.35 * 100 * 0.3 - 5) / 5 = 1.1 /\ 1 <= Rabs 1.1 /\
  F_x fresh = Some (F_max fresh) /\ F_max fresh = 10000 /\
  exists self',
    step fresh throttle alpha = Done self' /\
    a self' = (10000 - f_load fresh alpha) / m fresh.
Proof.
  intros Hp Hfresh.
  assert (Hinit : fresh = Vehicle_init).
  { destruct Hfresh as [-> | ->]; [reflexivity | exact (reset_constructed self Hp)]. }
  subst fresh.
  assert (Hval : (0.35 * 100 * 0.3 - 5) / 5 = 1.1) by lra.
  split; [rewrite Hval; exact slip_init |]. split; [exact Hval |].
  split; [rewrite Rabs_right; lra |].
  split; [exact F_x_init |]. split; [reflexivity |].
  destruct (first_step throttle alpha) as (self' & Hstep & _ & Ha & _).
  exists self'. split; [exact Hstep |].
  rewrite Ha, f_load_init. cbn. lra.
Qed.

Lemma C10_witness :
  slip (reset (state_after (step Vehicle_init 0.2 0.1)))
  = Some ((0.35 * 100 * 0.3 - 5) / 5) /\
  (0.35 * 100 * 0.3 - 5) / 5 = 1.1 /\ 1 <= Rabs 1.1 /\
  F_x (reset (state_after (step Vehicle_init 0.2 0.1)))
  = Some (F_max (reset (state_after (step Vehicle_init 0.2 0.1)))) /\
  F_max (reset (state_after (step Vehicle_init 0.2 0.1))) = 10000 /\
  exists self',
    step (reset (state_after (step Vehicle_init 0.2 0.1))) 0.5 0.1 = Done self' /\
    a self' = (10000 - f_load (reset (state_after (step Vehicle_init 0.2 0.1))) 0.1)
              / m (reset (state_after (step Vehicle_init 0.2 0.1))).
Proof.
  apply (C10_first_step_saturates (state_after (step Vehicle_init 0.2 0.1))).
  - apply step_params.
  - right. reflexivity.
Defined.

Lemma C7_witness :
  steps Vehicle_init [(0.2, 0); (0.5, 0.1)]
  = steps Vehicle_init [(1 / 5, 0 * 3); (1 / 2, 1 / 10)] /\
  trajectory Vehicle_init [(0.2, 0); (0.5, 0.1)]
  = trajectory Vehicle_init [(1 / 5, 0 * 3); (1 / 2, 1 / 10)].
Proof.
  apply (C7_step_deterministic (T := R)); [reflexivity |].
  intros [| [| i]] Hi; cbn [nth_error].
  - do 2 f_equal; lra.
  - do 2 f_equal; lra.
  - simpl in Hi. lia.
Defined.

(** The incline the loop body passes to step, by the position of the model. *)
Lemma climb_cases (alpha1 alpha2 : R) (i : nat) (nb : Notebook R) :
  (x (model nb) < 60 -> climb alpha1 alpha2 i nb = model_step nb i alpha1) /\
  (60 <= x (model nb) < 150 -> climb alpha1 alpha2 i nb = model_step nb i alpha2) /\
  (150 <= x (model nb) -> climb alpha1 alpha2 i nb = model_step nb i 0).
Proof.
  unfold climb.
  change (num_lt (x (model nb)) (num_int 60)) with (num_lt (x (model nb)) 60).
  change (num_lt (x (model nb)) (num_int 150)) with (num_lt (x (model nb)) 150).
  repeat split.
  - intros H. now rewrite lt_true.
  - intros [H1 H2]. rewrite lt_false by lra. now rewrite lt_true.
  - intros H. rewrite !lt_false by lra. reflexivity.
Qed.

(** C8 (amended): the throttle array of cell 7 rises linearly from 0.2 in
    increments of 0.0006 over the first 5 s (samples 0 to 499, sample i being
    time i*0.01 s), holds 0.5 on samples 500 to 1500 (5 s to 15 s), then falls
    by 0.001 per sample down to 0.001 at the last sample 1999; and the loop
    calls step with atan(3/60) while the model's x < 60, atan(0.1) while
    60 <= x < 150, and 0 otherwise. *)
Theorem C8_scenario_profiles (model0 : Vehicle R) :
  let nb0 := cell7_arrays model0 in
  exists throttle : list R,
    throttle_profile nb0 = Done (set_t_data nb0 throttle) /\
    length throttle = 2000%nat /\
    (forall i,
       ((i < 500)%nat -> getitem throttle i = Some (0.2 + 0.0006 * INR i)) /\
       ((500 <= i <= 1500)%nat -> getitem throttle i = Some 0.5) /\
       ((1501 <= i < 2000)%nat ->
        getitem throttle i = Some (0.5 - 0.001 * INR (i - 1500)))) /\
    (forall i, (i < 2000)%nat -> getitem (ti_data nb0) i = Some (INR i * 0.01)) /\
    cell7 model0
    = for_range 0 2000 (drive_body (atan (3 / 60)) (atan 0.1))
        (set_model (set_t_data nb0 throttle) (reset model0)) /\
    (forall i nb,
       (x (model nb) < 60 ->
        climb (atan (3 / 60)) (atan 0.1) i nb = model_step nb i (atan (3 / 60))) /\
       (60 <= x (model nb) < 150 ->
        climb (atan (3 / 60)) (atan 0.1) i nb = model_step nb i (atan 0.1)) /\
       (150 <= x (model nb) ->
        climb (atan (3 / 60)) (atan 0.1) i nb = model_step nb i 0)).
Proof.
  intros nb0.
  assert (Hlen0 : length (t_data nb0) = 2000%nat) by apply np_arange_length.
  destruct (throttle_profile_spec nb0 Hlen0) as (throttle & Hprof & Hlen & Hval).
  exists throttle.
  split; [exact Hprof |]. split; [exact Hlen |]. split; [exact Hval |].
  split; [| split].
  - intros i Hi. unfold nb0, cell7_arrays. cbn [ti_data].
    rewrite (np_arange_nth arange_len sample_time_global i Hi).
    f_equal. rewrite INR_IZR_INZ. cbn [num_float64 num_mul num_int RNum].
    unfold sample_time_global. cbn [num_lit RNum]. lra.
  - assert (Hq : num_truediv (num_int 3) (num_int 60) = Some (3 / 60))
      by (apply truediv_nonzero; cbn; lra).
    rewrite (cell7_unfold model0 (3 / 60) throttle Hq Hprof), Hlen.
    replace (num_lit 1 10) with 0.1 by (cbn; lra).
    reflexivity.
  - intros i nb. apply climb_cases.
Qed.

(** C8 as stated fails: 3 s into the scenario (sample 300) the throttle is
    0.38, not the 0.5 a ramp over the first 3 s would have reached; 0.5 is
    first held at sample 500, and the last sample holds 0.001, not 0. *)
Lemma C8_counterexample :
  exists throttle : list R,
    throttle_profile (cell7_arrays Vehicle_init)
    = Done (set_t_data (cell7_arrays Vehicle_init) throttle) /\
    getitem throttle 300 = Some 0.38 /\ 0.38 <> 0.5 /\
    getitem throttle 499 = Some 0.4994 /\
    getitem throttle 500 = Some 0.5 /\
    getitem throttle 1999 = Some 0.001.
Proof.
  assert (Hlen0 : length (t_data (cell7_arrays (Vehicle_init (T := R)))) = 2000%nat)
    by apply np_arange_length.
  destruct (throttle_profile_spec _ Hlen0) as (throttle & Hprof & _ & Hval).
  exists throttle. split; [exact Hprof |].
  assert (H300 : INR 300 = 300) by (rewrite INR_IZR_INZ; reflexivity).
  assert (H499 : INR 499 = 499) by (rewrite INR_IZR_INZ; reflexivity).
  assert (H499' : INR (1999 - 1500) = 499) by (rewrite INR_IZR_INZ; reflexivity).
  split; [| split; [lra | split; [| split]]].
  - rewrite (proj1 (Hval 300%nat)) by lia. f_equal. rewrite H300. lra.
  - rewrite (proj1 (Hval 499%nat)) by lia. f_equal. rewrite H499. lra.
  - apply (proj1 (proj2 (Hval 500%nat))). lia.
  - rewrite (proj2 (proj2 (Hval 1999%nat))) by lia. f_equal. rewrite H499'. lra.
Qed.

End Exact.

(** ** The binary64 reading *)

Module Binary64.
Import Binary64Numbers.

Lemma three_sixtieths_value :
  num_truediv (num_int 3) (num_int 60) = Some three_sixtieths.
Proof. vm_compute. reflexivity. Qed.

Lemma throttle_profile_value :
  throttle_profile (cell7_arrays Vehicle_init)
  = Done (set_t_data (cell7_arrays Vehicle_init) throttle_values).
Proof. vm_compute. reflexivity. Qed.

Lemma throttle_values_length : length throttle_values = 2000%nat.
Proof. vm_compute. reflexivity. Qed.

(** Every candidate pair of sines gives the same two samples. *)
Lemma crossings_of_candidates :
  forallb (fun s1 => forallb (crosses_at 673 1509 s1) sin_alpha2_candidates)
    sin_alpha1_candidates = true.
Proof. vm_compute. reflexivity. Qed.

Lemma crossings_of_candidate (s1 : pyfloat) :
  In s1 sin_alpha1_candidates ->
  forallb (crosses_at 673 1509 s1) sin_alpha2_candidates = true.
Proof.
  intros H1. exact (proj1 (forallb_forall _ _) crossings_of_candidates s1 H1).
Qed.

Lemma crosses_at_candidates (s1 s2 : pyfloat) :
  In s1 sin_alpha1_candidates -> In s2 sin_alpha2_candidates ->
  crosses_at 673 1509 s1 s2 = true.
Proof.
  intros H1 H2.
  exact (proj1 (forallb_forall _ _) (crossings_of_candidate s1 H1) s2 H2).
Qed.

Lemma crosses_at_crossings (s1 s2 : pyfloat) :
  crosses_at 673 1509 s1 s2 = true ->
  crossings s1 s2 (numpy PrimFloat.zero) = Some (673%nat, 1509%nat).
Proof.
  unfold crosses_at. intros Hone.
  destruct (crossings s1 s2 (numpy PrimFloat.zero)) as [[i j] |]; [| discriminate].
  apply andb_prop in Hone. destruct Hone as [Hi Hj].
  apply Nat.eqb_eq in Hi. apply Nat.eqb_eq in Hj. subst i j. reflexivity.
Qed.

Lemma crossings_samples (s1 s2 s0 : pyfloat) (i60 i150 : nat) :
  crossings s1 s2 s0 = Some (i60, i150) ->
  exists xs vs last,
    samples s1 s2 s0 Vehicle_init throttle_values = Some (xs, vs, last) /\
    first_reaching (num_int 60) xs = Some i60 /\
    first_reaching (num_int 150) xs = Some i150.
Proof.
  unfold crossings. intros Hc.
  destruct (samples s1 s2 s0 Vehicle_init throttle_values)
    as [[[xs vs] last] |]; [| discriminate].
  destruct (first_reaching (num_int 60) xs) as [i |] eqn:H60; [| discriminate].
  destruct (first_reaching (num_int 150) xs) as [j |] eqn:H150; [| discriminate].
  injection Hc as <- <-. exists xs, vs, last.
  split; [reflexivity |]. split; assumption.
Qed.

(** The time axis at the two samples: 6.73 s and 15.09 s. *)
Lemma sample_times :
  getitem (np_arange arange_len sample_time_global) 673
  = Some (num_float64 (num_lit 673 100)) /\
  getitem (np_arange arange_len sample_time_global) 1509
  = Some (num_float64 (num_lit 1509 100)) /\
  num_lt (num_lit 673 100) (num_lit 145 10) = true /\
  num_lt (num_lit 145 10) (num_lit 1509 100) = true /\
  num_lt (num_lit 1509 100) (num_lit 155 10) = true.
Proof. vm_compute. repeat split; reflexivity. Qed.

Section Scenario.
Context {L : Libm pyfloat}.

(** Cell 7 with [model] bound to an object with the constructor's parameters,
    for any numpy whose sines of the two slope angles are among the
    candidates. *)
Lemma scenario_crossings (model0 : Vehicle pyfloat) :
  params_of model0 = params_of Vehicle_init ->
  In (np_sin (np_arctan three_sixtieths)) sin_alpha1_candidates ->
  In (np_sin (np_arctan (num_lit 1 10))) sin_alpha2_candidates ->
  np_sin (num_int 0) = numpy PrimFloat.zero ->
  exists xs vs last,
    cell7 model0
    = Done (mkNotebook last throttle_values xs vs
              (np_arange arange_len sample_time_global)) /\
    first_reaching (num_int 60) xs = Some 673%nat /\
    first_reaching (num_int 150) xs = Some 1509%nat.
Proof.
  intros Hp H1 H2 H0.
  destruct (crossings_samples _ _ _ _ _
              (crosses_at_crossings _ _ (crosses_at_candidates _ _ H1 H2)))
    as (xs & vs & last & Hs & H60 & H150).
  exists xs, vs, last. split; [| split; assumption].
  rewrite (cell7_unfold model0 three_sixtieths throttle_values
             three_sixtieths_value
             (throttle_profile_any_model Vehicle_init model0 throttle_values
                throttle_profile_value)).
  rewrite (reset_constructed model0 Hp).
  apply drive_from_start.
  - rewrite np_zeros_like_length, np_arange_length, throttle_values_length.
    reflexivity.
  - rewrite np_zeros_like_length, np_arange_length, throttle_values_length.
    reflexivity.
  - rewrite H0. exact Hs.
Qed.

End Scenario.

(** The sines of [series_libm] are among the candidates. *)
Lemma series_libm_sines :
  In (np_sin (Libm := series_libm) (np_arctan (Libm := series_libm) three_sixtieths))
    sin_alpha1_candidates /\
  In (np_sin (Libm := series_libm) (np_arctan (Libm := series_libm) (num_lit 1 10)))
    sin_alpha2_candidates /\
  np_sin (Libm := series_libm) (num_int 0) = numpy PrimFloat.zero.
Proof.
  vm_compute.
  repeat split; repeat (try (left; reflexivity); right).
Qed.

(** C9 (amended): cell 7 resets the model and steps the scenario at
    dt = 0.01 s.  With the sines of the two slope angles within 4 units in the
    last place of their reference values, the position first reaches
    x >= 60 m at sample 673, t = 6.73 s, well before 14.5 s; it is x >= 150 m,
    the end of the second slope, that is first reached within 15 s +- 0.5 s,
    at sample 1509, t = 15.09 s. *)
Theorem C9_scenario_crossing_times (L : Libm pyfloat) (model0 : Vehicle pyfloat) :
  params_of model0 = params_of Vehicle_init ->
  In (np_sin (np_arctan three_sixtieths)) sin_alpha1_candidates ->
  In (np_sin (np_arctan (num_lit 1 10))) sin_alpha2_candidates ->
  np_sin (num_int 0) = numpy PrimFloat.zero ->
  exists nb,
    cell7 model0 = Done nb /\
    first_reaching (num_int 60) (x_data nb) = Some 673%nat /\
    getitem (ti_data nb) 673 = Some (num_float64 (num_lit 673 100)) /\
    num_lt (num_lit 673 100) (num_lit 145 10) = true /\
    first_reaching (num_int 150) (x_data nb) = Some 1509%nat /\
    getitem (ti_data nb) 1509 = Some (num_float64 (num_lit 1509 100)) /\
    num_lt (num_lit 145 10) (num_lit 1509 100) = true /\
    num_lt (num_lit 1509 100) (num_lit 155 10) = true.
Proof.
  intros Hp H1 H2 H0.
  destruct (scenario_crossings model0 Hp H1 H2 H0)
    as (xs & vs & last & Hrun & H60 & H150).
  destruct sample_times as (Ht60 & Ht150 & Hlt60 & Hgt150 & Hlt150).
  eexists.
  split; [exact Hrun |]. cbn [x_data ti_data].
  split; [exact H60 |]. split; [exact Ht60 |]. split; [exact Hlt60 |].
  split; [exact H150 |]. split; [exact Ht150 |]. split; assumption.
Qed.

Lemma C9_witness :
  exists nb,
    cell7 (L := series_libm) Vehicle_init = Done nb /\
    first_reaching (num_int 60) (x_data nb) = Some 673%nat /\
    getitem (ti_data nb) 673 = Some (num_float64 (num_lit 673 100)) /\
    num_lt (num_lit 673 100) (num_lit 145 10) = true /\
    first_reaching (num_int 150) (x_data nb) = Some 1509%nat /\
    getitem (ti_data nb) 1509 = Some (num_float64 (num_lit 1509 100)) /\
    num_lt (num_lit 145 10) (num_lit 1509 100) = true /\
    num_lt (num_lit 1509 100) (num_lit 155 10) = true.
Proof.
  exact (C9_scenario_crossing_times series_libm Vehicle_init eq_refl
           (proj1 series_libm_sines)
           (proj1 (proj2 series_libm_sines))
           (proj2 (proj2 series_libm_sines))).
Defined.

(** C9 as stated fails: with [series_libm] the position first reaches 60 m at
    sample 673, at time 6.73 s, which is below 14.5 s = 15 s - 0.5 s. *)
Lemma C9_counterexample :
  exists nb,
    cell7 (L := series_libm) Vehicle_init = Done nb /\
    first_reaching (num_int 60) (x_data nb) = Some 673%nat /\
    getitem (ti_data nb) 673 = Some (num_float64 (num_lit 673 100)) /\
    num_lt (num_lit 673 100) (num_lit 145 10) = true.
Proof.
  destruct (scenario_crossings (L := series_libm) Vehicle_init eq_refl
              (proj1 series_libm_sines)
              (proj1 (proj2 series_libm_sines))
              (proj2 (proj2 series_libm_sines)))
    as (xs & vs & last & Hrun & H60 & _).
  destruct sample_times as (Ht60 & _ & Hlt60 & _).
  eexists.
  split; [exact Hrun |]. cbn [x_data ti_data].
  split; [exact H60 |]. split; [exact Ht60 | exact Hlt60].
Qed.

(** *** How step raises in binary64 *)

(** Three facts of IEEE arithmetic: a float equal to zero is a signed zero,
    its square is not infinite, and a quotient by it is inf or nan, never
    below 1 in magnitude. *)
Lemma zero_cases (f : PrimFloat.float) :
  is_zero f = true -> exists s, FloatOps.Prim2SF f = SpecFloat.S754_zero s.
Proof.
  unfold is_zero. rewrite FloatAxioms.eqb_spec.
  change (FloatOps.Prim2SF PrimFloat.zero) with (SpecFloat.S754_zero false).
  destruct (FloatOps.Prim2SF f) as [s | s | | s mm e]; try discriminate.
  - intros _. now exists s.
  - destruct s; discriminate.
  - destruct s; discriminate.
Qed.

Lemma square_of_zero (f : PrimFloat.float) :
  is_zero f = true -> PrimFloat.is_infinity (PrimFloat.mul f f) = false.
Proof.
  intros H. destruct (zero_cases f H) as [s Hs].
  unfold PrimFloat.is_infinity.
  rewrite FloatAxioms.eqb_spec, FloatAxioms.abs_spec, FloatAxioms.mul_spec, Hs.
  destruct s; reflexivity.
Qed.

Lemma div_zero_not_below_one (y z : PrimFloat.float) :
  is_zero z = true ->
  PrimFloat.ltb (PrimFloat.abs (PrimFloat.div y z)) (float_of_Z 1) = false.
Proof.
  intros H. destruct (zero_cases z H) as [s Hs].
  rewrite FloatAxioms.ltb_spec, FloatAxioms.abs_spec, FloatAxioms.div_spec, Hs.
  replace (FloatOps.Prim2SF (float_of_Z 1))
    with (SpecFloat.S754_finite false 4503599627370496 (-52))
    by (vm_compute; reflexivity).
  destruct (FloatOps.Prim2SF y) as [sy | sy | | sy my ey]; reflexivity.
Qed.

(** [**2] raises on neither a numpy.float64 nor a zero. *)
Lemma pow2_numpy (y : pyfloat) : is_numpy y = true -> num_pow2_raises y = false.
Proof.
  intros H. cbn [num_pow2_raises FNum]. unfold pow2_overflows. now rewrite H.
Qed.

Lemma pow2_zero (y : pyfloat) : is_zero (bits y) = true -> num_pow2_raises y = false.
Proof.
  intros H. cbn [num_pow2_raises FNum]. unfold pow2_overflows.
  rewrite (square_of_zero _ H). apply andb_false_r.
Qed.

(** [/] raises on neither a numpy.float64 operand nor a divisor that is not
    zero. *)
Lemma truediv_numpy (y z : pyfloat) :
  is_numpy z = true -> num_truediv y z = Some (lift2 PrimFloat.div y z).
Proof.
  intros H. cbn [num_truediv FNum]. rewrite H, orb_true_r. cbn [negb].
  rewrite andb_false_r. reflexivity.
Qed.

Lemma truediv_numpy_numerator (y z : pyfloat) :
  is_numpy y = true -> num_truediv y z = Some (lift2 PrimFloat.div y z).
Proof.
  intros H. cbn [num_truediv FNum]. rewrite H. cbn [orb negb].
  rewrite andb_false_r. reflexivity.
Qed.

Lemma truediv_nonzero_bits (y z : pyfloat) :
  is_zero (bits z) = false -> num_truediv y z = Some (lift2 PrimFloat.div y z).
Proof. intros H. cbn [num_truediv FNum]. rewrite H. reflexivity. Qed.

Lemma truediv_constructed (y : pyfloat) :
  num_truediv y (num_int 10) = Some (lift2 PrimFloat.div y (num_int 10)) /\
  num_truediv y (num_int 2000) = Some (lift2 PrimFloat.div y (num_int 2000)).
Proof. split; apply truediv_nonzero_bits; vm_compute; reflexivity. Qed.

(** The slip ratio: it raises exactly as [slip_raises] says, and at a zero
    velocity it is otherwise inf or nan, which takes the else branch. *)
Lemma slip_binary64 (self : Vehicle pyfloat) :
  slip self
  = if slip_raises self then None
    else Some (lift2 PrimFloat.div
                 (GR self * w_e self * r_e self - v self)%py (v self)).
Proof.
  unfold slip, slip_raises.
  cbn [num_truediv num_mul num_sub FNum lift2 is_numpy].
  destruct (is_zero (bits (v self))), (is_numpy (GR self)), (is_numpy (w_e self)),
    (is_numpy (r_e self)), (is_numpy (v self)); reflexivity.
Qed.

Lemma zero_slip_saturates (self : Vehicle pyfloat) (s : pyfloat) :
  is_zero (bits (v self)) = true ->
  slip self = Some s ->
  (num_abs s <? num_int 1)%py = false.
Proof.
  intros Hz Hs. rewrite slip_binary64 in Hs.
  destruct (slip_raises self); [discriminate |]. injection Hs as <-.
  exact (div_zero_not_below_one _ _ Hz).
Qed.

(** With a numpy.float64 sine the load is a numpy.float64, and so are the
    numerators of the divisions by J_e and by m: neither can raise. *)
Lemma f_load_numpy (L : Libm pyfloat) (self : Vehicle pyfloat) (alpha : pyfloat) :
  is_numpy (np_sin alpha) = true -> is_numpy (f_load self alpha) = true.
Proof.
  intros H. unfold f_load. cbn [num_add num_mul FNum lift2 is_numpy].
  rewrite H. now rewrite !orb_true_r.
Qed.

Lemma engine_division (L : Libm pyfloat) (self : Vehicle pyfloat)
  (throttle alpha : pyfloat) :
  is_numpy (np_sin alpha) = true ->
  num_truediv (T_e self throttle - GR self * r_e self * f_load self alpha)%py
    (J_e self)
  = Some (lift2 PrimFloat.div
            (T_e self throttle - GR self * r_e self * f_load self alpha)%py
            (J_e self)).
Proof.
  intros H. apply truediv_numpy_numerator.
  cbn [num_sub num_mul FNum lift2 is_numpy].
  rewrite (f_load_numpy L self alpha H). now rewrite !orb_true_r.
Qed.

Lemma mass_division (L : Libm pyfloat) (self : Vehicle pyfloat)
  (alpha Fx : pyfloat) :
  is_numpy (np_sin alpha) = true ->
  num_truediv (Fx - f_load self alpha)%py (m self)
  = Some (lift2 PrimFloat.div (Fx - f_load self alpha)%py (m self)).
Proof.
  intros H. apply truediv_numpy_numerator.
  cbn [num_sub FNum lift2 is_numpy].
  rewrite (f_load_numpy L self alpha H). apply orb_true_r.
Qed.

(** The parameters the divisions and the last [**2] read, on an object that
    has the constructor's. *)
Lemma constructed_fields (self : Vehicle pyfloat) :
  params_of self = params_of Vehicle_init ->
  GR self = num_lit 35 100 /\ r_e self = num_lit 3 10 /\
  J_e self = num_int 10 /\ m self = num_int 2000 /\
  sample_time self = num_lit 1 100.
Proof.
  destruct self. unfold params_of. cbn.
  intros H. injection H as -> -> -> -> -> -> -> -> -> -> -> -> ->.
  repeat split.
Qed.

Lemma sample_time_square : num_pow2_raises (num_lit 1 100 : pyfloat) = false.
Proof. vm_compute. reflexivity. Qed.

Lemma slip_raises_constructed (self : Vehicle pyfloat) :
  params_of self = params_of Vehicle_init ->
  slip_raises self
  = is_zero (bits (v self)) && negb (is_numpy (w_e self) || is_numpy (v self)).
Proof.
  intros Hp. destruct (constructed_fields self Hp) as (HGR & Hre & _).
  unfold slip_raises. rewrite HGR, Hre. cbn [num_lit FNum python is_numpy orb].
  now rewrite orb_false_r.
Qed.

(** C3 (amended): step has no guard for v = 0, and what the unguarded
    division does depends on the kind of number it meets.  On an object with
    the constructor's parameters, for every throttle and incline angle:
    when v is a zero and v and w_e are Python numbers (as the constructor and
    reset() store them), the call raises ZeroDivisionError, after w_e_dot has
    been assigned and before a, w_e, v and x are; when v is a zero and v or
    w_e is a numpy.float64 (as every completed call leaves them), the slip
    ratio is inf or nan, the tire force is F_max and the call completes; when
    v is not a zero the call completes.  ([w_e**2], and [v**2] in the last
    case, are assumed not to end in OverflowError.) *)
Theorem C3_zero_velocity_raises (L : Libm pyfloat) (self : Vehicle pyfloat)
  (throttle alpha : pyfloat) :
  params_of self = params_of Vehicle_init ->
  num_pow2_raises (w_e self) = false ->
  (is_zero (bits (v self)) = true ->
   is_numpy (v self) = false -> is_numpy (w_e self) = false ->
   step self throttle alpha
   = Raised ZeroDivisionError
       (set_w_e_dot self
          (lift2 PrimFloat.div
             (T_e self throttle - GR self * r_e self * f_load self alpha)%py
             (J_e self)))) /\
  (is_zero (bits (v self)) = true ->
   is_numpy (v self) || is_numpy (w_e self) = true ->
   exists self',
     step self throttle alpha = Done self' /\
     F_x self = Some (F_max self) /\
     a self' = lift2 PrimFloat.div (F_max self - f_load self alpha)%py (m self)) /\
  (is_zero (bits (v self)) = false ->
   num_pow2_raises (v self) = false ->
   completed (step self throttle alpha) = true).
Proof.
  intros Hp How.
  destruct (constructed_fields self Hp) as (_ & _ & HJ & Hm & Hdt).
  pose proof (slip_raises_constructed self Hp) as Hsr.
  pose proof (slip_binary64 self) as Hslip.
  assert (Hq : num_truediv
                 (T_e self throttle - GR self * r_e self * f_load self alpha)%py
                 (J_e self)
               = Some (lift2 PrimFloat.div
                         (T_e self throttle
                          - GR self * r_e self * f_load self alpha)%py
                         (J_e self))).
  { rewrite HJ. apply (proj1 (truediv_constructed _)). }
  assert (Hq' : forall y, num_truediv y (m self)
                          = Some (lift2 PrimFloat.div y (m self))).
  { intros y. rewrite Hm. apply (proj2 (truediv_constructed _)). }
  assert (Hdt' : num_pow2_raises (sample_time self) = false).
  { rewrite Hdt. exact sample_time_square. }
  split; [| split].
  - intros Hz Hv Hw.
    apply step_slip_None; [exact (pow2_zero _ Hz) | exact How | exact Hq |].
    rewrite Hslip, Hsr, Hz, Hv, Hw. reflexivity.
  - intros Hz Hnp.
    assert (Hsome : slip_raises self = false).
    { rewrite Hsr, Hz. rewrite (orb_comm (is_numpy (w_e self))), Hnp. reflexivity. }
    rewrite Hsome in Hslip. cbv beta iota in Hslip.
    pose proof (zero_slip_saturates self _ Hz Hslip) as Hsat.
    destruct (step_Done_when self throttle alpha _ _ _
                (pow2_zero _ Hz) How Hq Hslip (Hq' _) Hdt') as (self' & Hstep).
    exists self'. split; [exact Hstep |].
    split; [unfold F_x; rewrite Hslip, Hsat; reflexivity |].
    destruct (step_Done_fields _ _ _ _ Hstep)
      as (q0 & s0 & q0' & _ & Hs0 & Hq0' & _ & Ha & _).
    assert (Es : s0 = lift2 PrimFloat.div
                        (GR self * w_e self * r_e self - v self)%py (v self))
      by congruence.
    rewrite Es, Hsat, Hq' in Hq0'. rewrite Ha. congruence.
  - intros Hz Hov.
    assert (Hsome : slip_raises self = false) by (rewrite Hsr, Hz; reflexivity).
    rewrite Hsome in Hslip. cbv beta iota in Hslip.
    destruct (step_Done_when self throttle alpha _ _ _
                Hov How Hq Hslip (Hq' _) Hdt') as (self' & ->).
    reflexivity.
Qed.

(** The three cases at work: a fresh object whose v is set to 0 raises; the
    same assignment after one completed call (w_e is then a numpy.float64)
    does not; the fresh object itself completes. *)
Lemma C3_witness :
  step (L := series_libm) (set_v Vehicle_init (num_int 0))
    (num_lit 2 10) (num_lit 1 10)
  = Raised ZeroDivisionError
      (set_w_e_dot (set_v Vehicle_init (num_int 0))
         (lift2 PrimFloat.div
            (T_e (set_v Vehicle_init (num_int 0)) (num_lit 2 10)
             - GR (set_v Vehicle_init (num_int 0))
               * r_e (set_v Vehicle_init (num_int 0))
               * f_load (L := series_libm) (set_v Vehicle_init (num_int 0))
                   (num_lit 1 10))%py
            (J_e (set_v Vehicle_init (num_int 0))))) /\
  (exists self',
     step (L := series_libm)
       (set_v (state_after (step (L := series_libm) Vehicle_init
                              (num_lit 2 10) (num_lit 1 10)))
          (num_int 0))
       (num_lit 2 10) (num_lit 1 10)
     = Done self' /\
     F_x (set_v (state_after (step (L := series_libm) Vehicle_init
                                (num_lit 2 10) (num_lit 1 10)))
            (num_int 0))
     = Some (F_max (set_v (state_after (step (L := series_libm) Vehicle_init
                                          (num_lit 2 10) (num_lit 1 10)))
                      (num_int 0))) /\
     a self'
     = lift2 PrimFloat.div
         (F_max (set_v (state_after (step (L := series_libm) Vehicle_init
                                       (num_lit 2 10) (num_lit 1 10)))
                   (num_int 0))
          - f_load (L := series_libm)
              (set_v (state_after (step (L := series_libm) Vehicle_init
                                     (num_lit 2 10) (num_lit 1 10)))
                 (num_int 0))
              (num_lit 1 10))%py
         (m (set_v (state_after (step (L := series_libm) Vehicle_init
                                   (num_lit 2 10) (num_lit 1 10)))
               (num_int 0)))) /\
  completed (step (L := series_libm) Vehicle_init (num_lit 2 10) (num_lit 1 10))
  = true.
Proof.
  split; [| split].
  - refine (proj1 (C3_zero_velocity_raises series_libm
                     (set_v Vehicle_init (num_int 0)) (num_lit 2 10) (num_lit 1 10)
                     _ _) _ _ _); reflexivity.
  - refine (proj1 (proj2 (C3_zero_velocity_raises series_libm
                            (set_v (state_after
                                      (step (L := series_libm) Vehicle_init
                                         (num_lit 2 10) (num_lit 1 10)))
                               (num_int 0))
                            (num_lit 2 10) (num_lit 1 10) _ _)) _ _);
      vm_compute; reflexivity.
  - refine (proj2 (proj2 (C3_zero_velocity_raises series_libm Vehicle_init
                            (num_lit 2 10) (num_lit 1 10) _ _)) _ _);
      reflexivity.
Defined.

(** C3 as stated fails: on a fresh object whose v has been set to 0,
    step(0, 0) raises ZeroDivisionError, with w_e_dot = 0 already stored and
    nothing else assigned. *)
Lemma C3_counterexample :
  step (L := series_libm) (set_v Vehicle_init (num_int 0)) (num_int 0) (num_int 0)
  = Raised ZeroDivisionError
      (set_w_e_dot (set_v Vehicle_init (num_int 0)) (numpy PrimFloat.zero)) /\
  completed (step (L := series_libm) (set_v Vehicle_init (num_int 0))
               (num_int 0) (num_int 0))
  = false.
Proof. vm_compute. split; reflexivity. Qed.

(** *** Two instances that hold whatever numpy's functions return *)

(** A Python zero raises, whatever the inputs and numpy's functions are. *)
Lemma python_zero_velocity_raises (L : Libm pyfloat) (throttle alpha : pyfloat) :
  exists self',
    step (set_v Vehicle_init (num_int 0)) throttle alpha
    = Raised ZeroDivisionError self'.
Proof. eexists. vm_compute. reflexivity. Qed.

(** A numpy.float64 zero does not: the slip ratio is inf, which is not below
    1, so the tire force is F_max and the call completes. *)
Lemma numpy_zero_velocity_completes (L : Libm pyfloat) (throttle alpha : pyfloat) :
  slip (set_v Vehicle_init (numpy PrimFloat.zero)) = Some (numpy PrimFloat.infinity) /\
  F_x (set_v Vehicle_init (numpy PrimFloat.zero)) = Some (F_max Vehicle_init) /\
  completed (step (set_v Vehicle_init (numpy PrimFloat.zero)) throttle alpha) = true.
Proof. vm_compute. repeat split; reflexivity. Qed.

(** *** The first call on a fresh object in binary64 *)

(** The slip ratio is the binary64 1.1 and the tire force is F_max. *)
Lemma first_step_binary64 :
  slip Vehicle_init = Some (num_lit 11 10) /\
  F_x Vehicle_init = Some (F_max Vehicle_init).
Proof. vm_compute. split; reflexivity. Qed.

(** step(0, 0): the acceleration is positive, v grows, and x is the binary64
    nearest to 0.05024914875. *)
Lemma first_call_binary64 (L : Libm pyfloat) :
  np_sin (num_int 0) = numpy PrimFloat.zero ->
  exists self',
    step Vehicle_init (num_int 0) (num_int 0) = Done self' /\
    num_lt (num_int 0) (a self') = true /\
    num_lt (v Vehicle_init) (v self') = true /\
    x self' = num_float64 (num_lit 5024914875 100000000000).
Proof.
  intros H0. rewrite step_sine_eq, H0.
  eexists. split; [vm_compute; reflexivity |].
  vm_compute. repeat split; reflexivity.
Qed.

End Binary64.

(** * Further properties of the code *)

(** ** At every instance *)

Section ModelExtras.
Context {T : Type} {N : PyNum T} {L : Libm T}.
Local Open Scope py_scope.

(** X1: a run of any number of step calls from any object, completed or cut
    short by a raise, leaves all thirteen parameters as they were. *)
Theorem X1_parameters_never_change (self : Vehicle T) (inputs : list (T * T)) :
  params_of (state_after (steps self inputs)) = params_of self.
Proof.
  revert self. induction inputs as [| [throttle alpha] rest IH]; intros self.
  - reflexivity.
  - cbn [steps].
    pose proof (step_params self throttle alpha) as Hp.
    destruct (step self throttle alpha) as [self' | e self']; cbn [state_after] in *.
    + rewrite IH. exact Hp.
    + exact Hp.
Qed.

(** X3: the throttle of a call acts on the engine only: two completed calls
    on the same object with the same incline angle and different throttles
    store the same a, v and x (they differ in w_e_dot and w_e). *)
Theorem X3_throttle_acts_on_engine_only (self s1 s2 : Vehicle T)
  (throttle1 throttle2 alpha : T) :
  step self throttle1 alpha = Done s1 ->
  step self throttle2 alpha = Done s2 ->
  a s1 = a s2 /\ v s1 = v s2 /\ x s1 = x s2.
Proof.
  intros H1 H2.
  destruct (step_Done_fields _ _ _ _ H1)
    as (q1 & sl1 & a1 & _ & Hs1 & Ha1 & _ & Hae1 & _ & Hv1 & Hx1).
  destruct (step_Done_fields _ _ _ _ H2)
    as (q2 & sl2 & a2 & _ & Hs2 & Ha2 & _ & Hae2 & _ & Hv2 & Hx2).
  rewrite Hs1 in Hs2. injection Hs2 as <-.
  rewrite Ha1 in Ha2. injection Ha2 as <-.
  rewrite Hx1, Hx2, Hv1, Hv2, Hae1, Hae2. repeat split.
Qed.

Lemma reset_by_params (s1 s2 : Vehicle T) :
  params_of s1 = params_of s2 -> reset s1 = reset s2.
Proof.
  destruct s1, s2. unfold params_of, reset. cbn.
  intros H. injection H as -> -> -> -> -> -> -> -> -> -> -> -> ->.
  reflexivity.
Qed.

(** X4: reset() forgets every call made before it: on any object, with any
    parameters, resetting after a run of step calls (completed or cut short
    by a raise) gives the same object as resetting before the run. *)
Theorem X4_reset_forgets_steps (self : Vehicle T) (inputs : list (T * T)) :
  reset (state_after (steps self inputs)) = reset self.
Proof. apply reset_by_params, steps_params. Qed.

(** X5: a call reads the incline angle only through its sine: two angles
    with the same [np.sin] give the same outcome, field by field. *)
Theorem X5_incline_only_through_sine (self : Vehicle T) (throttle alpha1 alpha2 : T) :
  np_sin alpha1 = np_sin alpha2 ->
  step self throttle alpha1 = step self throttle alpha2.
Proof. intros H. rewrite !step_sine_eq, H. reflexivity. Qed.

(** A run read from the sines of its angles. *)
Lemma steps_sine (inputs : list (T * T)) :
  forall self,
    steps self inputs
    = steps (L := sine_given T) self
        (map (fun p => (fst p, np_sin (snd p))) inputs).
Proof.
  induction inputs as [| [throttle alpha] rest IH]; intros self; cbn [steps map fst snd].
  - reflexivity.
  - rewrite step_sine_eq. unfold step_sine.
    destruct (step (L := sine_given T) self throttle (np_sin alpha)); [apply IH | reflexivity].
Qed.

Lemma trajectory_nonempty (inputs : list (T * T)) (self : Vehicle T) :
  trajectory self inputs <> [].
Proof. destruct inputs; discriminate. Qed.

(** The loop of cell 5 against a run of step calls with one input pair. *)
Lemma constant_loop (throttle alpha : T) (td : list T) :
  forall (n lo : nat) (pv rv : list T) (self last : Vehicle T),
    lo = length pv -> length rv = n ->
    steps self (repeat (throttle, alpha) n) = Done last ->
    for_range_from lo n (constant_body throttle alpha)
      (mkConstantRun self td (pv ++ rv))
    = Done (mkConstantRun last td
              (pv ++ map (fun p => num_float64 (snd p))
                       (removelast (trajectory self (repeat (throttle, alpha) n))))).
Proof.
  induction n as [| n IH]; intros lo pv rv self last Hlo Hrv Hsteps.
  - destruct rv; [| discriminate]. cbn in Hsteps. injection Hsteps as <-.
    reflexivity.
  - destruct rv as [| hv rv]; [discriminate |].
    cbn [repeat steps trajectory] in Hsteps |- *.
    cbn [for_range_from]. unfold constant_body at 1.
    cbn [v_data run_model run_t_data].
    rewrite (setitem_at pv hv rv lo _ Hlo). cbn [attempt run_model run_t_data v_data].
    destruct (step self throttle alpha) as [self' | e self']; [| discriminate].
    rewrite (app_snoc _ pv).
    rewrite (IH (Datatypes.S lo) (pv ++ [num_float64 (v self)]) rv self' last);
      [ | rewrite length_snoc; lia | simpl in Hrv; lia | exact Hsteps ].
    rewrite <- app_assoc. cbn [app].
    destruct (trajectory self' (repeat (throttle, alpha) n)) as [| p t] eqn:Ht.
    + exfalso. exact (trajectory_nonempty _ _ Ht).
    + reflexivity.
Qed.

(** X11: cell 5 is a run of 10000 calls step(0.2, 0) on a fresh object: when
    that run completes, the cell completes with the same final object, and
    has stored in v_data the float64 of the velocity before each call, in
    order. *)
Theorem X11_cell5_records_velocities (last : Vehicle T) :
  steps Vehicle_init (repeat (num_lit 2 10, num_int 0) constant_len) = Done last ->
  cell5
  = Done (mkConstantRun last (np_arange constant_len sample_time_global)
            (map (fun p => num_float64 (snd p))
               (removelast
                  (trajectory Vehicle_init
                     (repeat (num_lit 2 10, num_int 0) constant_len))))).
Proof.
  intros Hsteps. unfold cell5, for_range. cbv zeta.
  rewrite Nat.sub_0_r, np_arange_length.
  exact (constant_loop (num_lit 2 10) (num_int 0) _ constant_len 0 []
           (np_zeros_like (np_arange constant_len sample_time_global))
           Vehicle_init last eq_refl
           (eq_trans (np_zeros_like_length _) (np_arange_length _ _)) Hsteps).
Qed.

(** The loop of cell 11 against a run of step calls with zero inputs. *)
Lemma cell11_run (nb : Notebook T) :
  cell11 nb
  = match steps (reset (model nb))
            (repeat (num_int 0, num_int 0) (length (t_data nb))) with
    | Done self' => Done (set_model nb self')
    | Raised e self' => Raised e (set_model nb self')
    end.
Proof.
  unfold cell11, for_range. cbv zeta. cbn [t_data set_model]. rewrite Nat.sub_0_r.
  generalize (reset (model nb)) as self.
  generalize 0%nat as lo.
  induction (length (t_data nb)) as [| n IH]; intros lo self.
  - reflexivity.
  - cbn [for_range_from repeat steps]. unfold coast_body at 1. cbn [model set_model].
    destruct (step self (num_int 0) (num_int 0)) as [self' | e self'].
    + change (set_model (mkNotebook self (t_data nb) (x_data nb) (v1_data nb) (ti_data nb)) self')
        with (set_model nb self').
      apply IH.
    + reflexivity.
Qed.

End ModelExtras.

(** ** Over the reals *)

Module ExactExtras.
Import RealNumbers.
Import Exact.
Local Open Scope R_scope.

Lemma X3_witness :
  exists s1 s2,
    step Vehicle_init 0.2 0.1 = Done s1 /\
    step Vehicle_init 0.5 0.1 = Done s2 /\
    a s1 = a s2 /\ v s1 = v s2 /\ x s1 = x s2.
Proof.
  destruct (first_step 0.2 0.1) as (s1 & H1 & _).
  destruct (first_step 0.5 0.1) as (s2 & H2 & _).
  exists s1, s2. split; [exact H1 |]. split; [exact H2 |].
  exact (X3_throttle_acts_on_engine_only Vehicle_init s1 s2 0.2 0.5 0.1 H1 H2).
Defined.

Lemma X5_witness :
  step Vehicle_init 0.2 (PI - 0.1) = step Vehicle_init 0.2 0.1.
Proof.
  apply (X5_incline_only_through_sine (T := R)). apply sin_PI_x.
Defined.

(** X7: with 0 <= c <= F_max the tire force never exceeds F_max in magnitude,
    so the acceleration a completed call stores is at most
    (F_max - F_load)/m for a positive mass. *)
Theorem X7_tire_force_bounded (self : Vehicle R) (throttle alpha : R) (Fx : R) :
  0 <= c self <= F_max self ->
  F_x self = Some Fx ->
  - F_max self <= Fx <= F_max self /\
  (J_e self <> 0 -> 0 < m self ->
   exists self',
     step self throttle alpha = Done self' /\
     a self' <= (F_max self - f_load self alpha) / m self).
Proof.
  intros [Hc0 Hc] HFx.
  assert (Hv : v self <> 0).
  { intros H0. unfold F_x, slip in HFx. rewrite H0, truediv_zero in HFx.
    discriminate. }
  assert (Hb : - F_max self <= Fx <= F_max self).
  { pose proof (slip_value self Hv) as Hs.
    destruct (Rlt_dec (Rabs ((GR self * w_e self * r_e self - v self) / v self)) 1)
      as [Hlt | Hge].
    - rewrite (F_x_linear self _ Hs Hlt) in HFx. injection HFx as <-.
      apply Rabs_def2 in Hlt. destruct Hlt as [H1 H2]. nra.
    - assert (Hge' : 1 <= Rabs ((GR self * w_e self * r_e self - v self) / v self))
        by lra.
      rewrite (F_x_saturated self _ Hs Hge') in HFx. injection HFx as <-. lra. }
  split; [exact Hb |].
  intros HJ Hm.
  assert (Hm' : m self <> 0) by lra.
  destruct (step_Done self throttle alpha HJ Hv Hm')
    as (Fx' & self' & HFx' & Hstep & _ & _ & Ha & _).
  rewrite HFx in HFx'. injection HFx' as <-.
  exists self'. split; [exact Hstep |].
  rewrite Ha. unfold Rdiv.
  apply Rmult_le_compat_r; [left; apply Rinv_0_lt_compat; exact Hm | lra].
Qed.

Lemma X7_witness :
  - F_max Vehicle_init <= 10000 <= F_max Vehicle_init /\
  (J_e (Vehicle_init (T := R)) <> 0 -> 0 < m (Vehicle_init (T := R)) ->
   exists self',
     step Vehicle_init 0.2 0.1 = Done self' /\
     a self' <= (F_max Vehicle_init - f_load Vehicle_init 0.1) / m Vehicle_init).
Proof.
  apply (X7_tire_force_bounded Vehicle_init 0.2 0.1 10000).
  - cbn. lra.
  - exact F_x_init.
Defined.

(** X9: with c > 0 and F_max > 0 the tire force has the sign of the slip
    ratio while |s| < 1, but is +F_max for every s <= -1: a wheel turning
    backwards pushes the vehicle forwards. *)
Theorem X9_tire_force_sign (self : Vehicle R) (s : R) :
  0 < c self -> 0 < F_max self ->
  slip self = Some s ->
  exists Fx,
    F_x self = Some Fx /\
    (0 < s < 1 -> 0 < Fx) /\
    (s = 0 -> Fx = 0) /\
    (-1 < s < 0 -> Fx < 0) /\
    (s <= -1 -> 0 < Fx).
Proof.
  intros Hc HF Hs.
  destruct (Rlt_dec (Rabs s) 1) as [Hlt | Hge].
  - exists (c self * s). split; [exact (F_x_linear self s Hs Hlt) |].
    apply Rabs_def2 in Hlt. destruct Hlt as [H1 H2].
    repeat split; intros; try nra.
  - assert (Hge' : 1 <= Rabs s) by lra.
    exists (F_max self). split; [exact (F_x_saturated self s Hs Hge') |].
    repeat split; intros H; try exact HF.
    + rewrite H, Rabs_R0 in Hge'. lra.
    + rewrite Rabs_left in Hge' by lra. lra.
Qed.

Lemma X9_witness :
  exists Fx,
    F_x (set_w_e Vehicle_init (-100)) = Some Fx /\
    (0 < -3.1 < 1 -> 0 < Fx) /\
    (-3.1 = 0 -> Fx = 0) /\
    (-1 < -3.1 < 0 -> Fx < 0) /\
    (-3.1 <= -1 -> 0 < Fx).
Proof.
  apply (X9_tire_force_sign (set_w_e Vehicle_init (-100)) (-3.1)).
  - cbn. lra.
  - cbn. lra.
  - rewrite slip_value by (cbn; lra). f_equal. cbn. lra.
Defined.

(** X10: on a 2000-entry array the throttle profile of cell 7 completes, and
    every throttle it writes lies in (0, 0.5], inside the range [0, 1] the
    model expects; the values never decrease up to sample 1500 and strictly
    decrease from sample 1500 on. *)
Theorem X10_throttle_profile_range (nb : Notebook R) :
  length (t_data nb) = 2000%nat ->
  exists arr,
    throttle_profile nb = Done (set_t_data nb arr) /\
    (forall i, (i < 2000)%nat ->
       exists th, getitem arr i = Some th /\ 0 < th <= 0.5) /\
    (forall i j thi thj, (i <= j <= 1500)%nat ->
       getitem arr i = Some thi -> getitem arr j = Some thj -> thi <= thj) /\
    (forall i j thi thj, (1500 <= i < j)%nat -> (j < 2000)%nat ->
       getitem arr i = Some thi -> getitem arr j = Some thj -> thj < thi).
Proof.
  intros Hlen.
  destruct (throttle_profile_spec nb Hlen) as (arr & Hprof & _ & Hval).
  exists arr. split; [exact Hprof |].
  assert (H499 : INR 499 = 499) by (rewrite INR_IZR_INZ; reflexivity).
  assert (Hup : forall i, (i < 500)%nat -> 0 <= INR i <= 499).
  { intros i Hi. split; [apply pos_INR |].
    rewrite <- H499. apply le_INR. lia. }
  assert (Hdown : forall i, (1501 <= i < 2000)%nat -> 1 <= INR (i - 1500) <= 499).
  { intros i Hi. split.
    - change 1 with (INR 1). apply le_INR. lia.
    - rewrite <- H499. apply le_INR. lia. }
  split; [| split].
  - intros i Hi.
    destruct (Nat.lt_ge_cases i 500) as [Hlo | Hhi].
    + exists (0.2 + 0.0006 * INR i).
      split; [exact (proj1 (Hval i) Hlo) |].
      pose proof (Hup i Hlo). lra.
    + destruct (Nat.le_gt_cases i 1500) as [Hmid | Hlast].
      * exists 0.5. split; [apply (proj1 (proj2 (Hval i))); lia | lra].
      * exists (0.5 - 0.001 * INR (i - 1500)).
        split; [apply (proj2 (proj2 (Hval i))); lia |].
        assert (Hd : 1 <= INR (i - 1500) <= 499) by (apply Hdown; lia). lra.
  - intros i j thi thj [Hij Hj] Hi' Hj'.
    destruct (Nat.lt_ge_cases j 500) as [Hjlo | Hjhi].
    + rewrite (proj1 (Hval i)) in Hi' by lia.
      rewrite (proj1 (Hval j)) in Hj' by lia.
      injection Hi' as <-. injection Hj' as <-.
      pose proof (le_INR i j Hij). lra.
    + rewrite (proj1 (proj2 (Hval j))) in Hj' by lia. injection Hj' as <-.
      destruct (Nat.lt_ge_cases i 500) as [Hilo | Hihi].
      * rewrite (proj1 (Hval i)) in Hi' by lia. injection Hi' as <-.
        pose proof (Hup i Hilo). lra.
      * rewrite (proj1 (proj2 (Hval i))) in Hi' by lia. injection Hi' as <-. lra.
  - intros i j thi thj [Hi Hij] Hj Hi' Hj'.
    rewrite (proj2 (proj2 (Hval j))) in Hj' by lia. injection Hj' as <-.
    destruct (Nat.eq_dec i 1500) as [-> | Hne].
    + rewrite (proj1 (proj2 (Hval 1500%nat))) in Hi' by lia. injection Hi' as <-.
      assert (Hd : 1 <= INR (j - 1500) <= 499) by (apply Hdown; lia). lra.
    + rewrite (proj2 (proj2 (Hval i))) in Hi' by lia. injection Hi' as <-.
      assert (Hlt : INR (i - 1500) < INR (j - 1500)) by (apply lt_INR; lia).
      lra.
Qed.

Lemma X10_witness :
  exists arr,
    throttle_profile (cell7_arrays (Vehicle_init (T := R)))
    = Done (set_t_data (cell7_arrays Vehicle_init) arr) /\
    (forall i, (i < 2000)%nat ->
       exists th, getitem arr i = Some th /\ 0 < th <= 0.5) /\
    (forall i j thi thj, (i <= j <= 1500)%nat ->
       getitem arr i = Some thi -> getitem arr j = Some thj -> thi <= thj) /\
    (forall i j thi thj, (1500 <= i < j)%nat -> (j < 2000)%nat ->
       getitem arr i = Some thi -> getitem arr j = Some thj -> thj < thi).
Proof.
  apply (X10_throttle_profile_range (cell7_arrays Vehicle_init)).
  apply np_arange_length.
Defined.

End ExactExtras.

(** ** In binary64 *)

Module Binary64Extras.
Import Binary64Numbers.
Import Binary64.

(** Every state variable is a numpy.float64. *)
Definition all_numpy (self : Vehicle pyfloat) : Prop :=
  is_numpy (x self) = true /\ is_numpy (v self) = true /\
  is_numpy (a self) = true /\ is_numpy (w_e self) = true /\
  is_numpy (w_e_dot self) = true.

(** No statement of the call raises on this state: neither [v**2] nor
    [w_e**2] overflows, and v is a numpy.float64 or is not zero. *)
Definition safe_state (self : Vehicle pyfloat) : Prop :=
  num_pow2_raises (v self) = false /\
  num_pow2_raises (w_e self) = false /\
  (is_numpy (v self) = true \/ is_zero (bits (v self)) = false).

Lemma step_completes (L : Libm pyfloat) (self : Vehicle pyfloat)
  (throttle alpha : pyfloat) :
  params_of self = params_of Vehicle_init ->
  is_numpy (np_sin alpha) = true ->
  safe_state self ->
  exists self',
    step self throttle alpha = Done self' /\
    params_of self' = params_of Vehicle_init /\
    all_numpy self'.
Proof.
  intros Hp Hsin (Hov & How & Hv).
  destruct (constructed_fields self Hp) as (_ & _ & _ & _ & Hdt).
  assert (Hslip : slip self
                  = Some (lift2 PrimFloat.div
                            (GR self * w_e self * r_e self - v self)%py (v self))).
  { rewrite slip_binary64, (slip_raises_constructed self Hp).
    destruct Hv as [Hv | Hv]; rewrite Hv; [| reflexivity].
    rewrite orb_true_r. cbn [negb]. rewrite andb_false_r. reflexivity. }
  assert (Hdt' : num_pow2_raises (sample_time self) = false)
    by (rewrite Hdt; exact sample_time_square).
  destruct (step_Done_when self throttle alpha _ _ _ Hov How
              (engine_division L self throttle alpha Hsin) Hslip
              (mass_division L self alpha _ Hsin) Hdt')
    as (self' & Hstep).
  exists self'. split; [exact Hstep |].
  split.
  { pose proof (step_params self throttle alpha) as Hps.
    rewrite Hstep in Hps. cbn [state_after] in Hps. now rewrite Hps. }
  destruct (step_Done_fields _ _ _ _ Hstep)
    as (q & s & q' & Hq & _ & Hq' & Hwd & Ha & Hw & Hv' & Hx').
  rewrite (engine_division L self throttle alpha Hsin) in Hq.
  rewrite (mass_division L self alpha _ Hsin) in Hq'.
  assert (Hqn : is_numpy q = true).
  { assert (E : q = lift2 PrimFloat.div
                      (T_e self throttle - GR self * r_e self * f_load self alpha)%py
                      (J_e self)) by congruence.
    rewrite E. cbn [lift2 is_numpy num_sub num_mul FNum].
    rewrite (f_load_numpy L self alpha Hsin). now rewrite !orb_true_r. }
  assert (Hqn' : is_numpy q' = true).
  { assert (E : q' = lift2 PrimFloat.div
                       ((if num_abs s <? num_int 1 then c self * s else F_max self)
                        - f_load self alpha)%py (m self)) by congruence.
    rewrite E. cbn [lift2 is_numpy num_sub FNum].
    rewrite (f_load_numpy L self alpha Hsin). now rewrite !orb_true_r. }
  unfold all_numpy. rewrite Hx', Hv', Ha, Hw, Hwd.
  cbn [lift2 is_numpy num_add num_sub num_mul FNum].
  rewrite Hqn, Hqn'. cbn [orb]. rewrite !orb_true_r. cbn [orb].
  repeat split.
Qed.

Lemma all_numpy_safe (self : Vehicle pyfloat) : all_numpy self -> safe_state self.
Proof.
  intros (_ & Hv & _ & Hw & _).
  split; [exact (pow2_numpy _ Hv) |]. split; [exact (pow2_numpy _ Hw) |].
  left. exact Hv.
Qed.

Lemma Vehicle_init_safe : safe_state Vehicle_init.
Proof. repeat split. right. vm_compute. reflexivity. Qed.

(** X2: in binary64, with np.sin returning a numpy.float64, a call of step
    that raises does so in one of three ways, whatever the parameters are.
    OverflowError at [v**2] or [w_e**2] on a Python number, with nothing
    assigned.  ZeroDivisionError at the slip ratio, when v is a zero and v,
    w_e, GR and r_e are all Python numbers, with w_e_dot assigned and nothing
    else.  OverflowError at [sample_time**2], with w_e_dot, a, w_e and v
    assigned and x not.  The divisions by J_e and by m never raise, and x and
    the parameters are never touched by a call that raises. *)
Theorem X2_raises_classified (L : Libm pyfloat) (self self' : Vehicle pyfloat)
  (throttle alpha : pyfloat) (e : exn) :
  is_numpy (np_sin alpha) = true ->
  step self throttle alpha = Raised e self' ->
  (e = OverflowError /\ self' = self /\
   (num_pow2_raises (v self) = true \/ num_pow2_raises (w_e self) = true)) \/
  (e = ZeroDivisionError /\ slip_raises self = true /\
   self' = set_w_e_dot self
             (lift2 PrimFloat.div
                (T_e self throttle - GR self * r_e self * f_load self alpha)%py
                (J_e self))) \/
  (e = OverflowError /\ num_pow2_raises (sample_time self) = true /\
   x self' = x self /\ params_of self' = params_of self /\
   w_e_dot self'
   = lift2 PrimFloat.div
       (T_e self throttle - GR self * r_e self * f_load self alpha)%py
       (J_e self) /\
   w_e self' = (w_e self + w_e_dot self' * sample_time self)%py /\
   v self' = (v self + a self' * sample_time self)%py).
Proof.
  intros Hsin Hstep.
  pose proof (engine_division L self throttle alpha Hsin) as HJ.
  destruct (step_Raised_cases _ _ _ _ _ Hstep)
    as [(-> & -> & Hov)
       | [(_ & _ & Hnone)
         | [(q & Hq & -> & -> & Hcause)
           | (q & s & q' & Hq & Hs & Hq' & -> & Hdt & ->)]]].
  - left. repeat split. exact Hov.
  - rewrite HJ in Hnone. discriminate.
  - right. left. split; [reflexivity |].
    assert (Eq : q = lift2 PrimFloat.div
                       (T_e self throttle
                        - GR self * r_e self * f_load self alpha)%py (J_e self))
      by congruence.
    rewrite Eq. split; [| reflexivity].
    destruct Hcause as [Hs | (s & _ & Hnone)].
    + rewrite slip_binary64 in Hs.
      destruct (slip_raises self); [reflexivity | discriminate].
    + rewrite (mass_division L self alpha _ Hsin) in Hnone. discriminate.
  - right. right. split; [reflexivity |]. split; [exact Hdt |].
    assert (Eq : q = lift2 PrimFloat.div
                       (T_e self throttle
                        - GR self * r_e self * f_load self alpha)%py (J_e self))
      by congruence.
    rewrite <- Eq. repeat split.
Qed.

(** Two of the raises at work: a Python zero velocity, and a Python velocity
    (the float 2.0**600) whose square overflows. *)
Lemma X2_witness :
  (step (L := series_libm) (set_v Vehicle_init (num_int 0)) (num_int 0) (num_int 0)
   = Raised ZeroDivisionError
       (set_w_e_dot (set_v Vehicle_init (num_int 0)) (numpy PrimFloat.zero)) /\
   slip_raises (set_v Vehicle_init (num_int 0)) = true) /\
  (step (L := series_libm)
     (set_v Vehicle_init (python (FloatOps.Z.ldexp PrimFloat.one 600)))
     (num_int 0) (num_int 0)
   = Raised OverflowError
       (set_v Vehicle_init (python (FloatOps.Z.ldexp PrimFloat.one 600))) /\
   (num_pow2_raises
      (v (set_v Vehicle_init (python (FloatOps.Z.ldexp PrimFloat.one 600))))
    = true \/
    num_pow2_raises
      (w_e (set_v Vehicle_init (python (FloatOps.Z.ldexp PrimFloat.one 600))))
    = true)).
Proof.
  assert (H1 : step (L := series_libm) (set_v Vehicle_init (num_int 0))
                 (num_int 0) (num_int 0)
               = Raised ZeroDivisionError
                   (set_w_e_dot (set_v Vehicle_init (num_int 0))
                      (numpy PrimFloat.zero)))
    by (vm_compute; reflexivity).
  assert (H2 : step (L := series_libm)
                 (set_v Vehicle_init
                    (python (FloatOps.Z.ldexp PrimFloat.one 600)))
                 (num_int 0) (num_int 0)
               = Raised OverflowError
                   (set_v Vehicle_init
                      (python (FloatOps.Z.ldexp PrimFloat.one 600))))
    by (vm_compute; reflexivity).
  split; (split; [assumption |]).
  - destruct (X2_raises_classified series_libm _ _ _ _ _ eq_refl H1)
      as [(He & _) | [(_ & Hs & _) | (He & _)]];
      [discriminate He | exact Hs | discriminate He].
  - destruct (X2_raises_classified series_libm _ _ _ _ _ eq_refl H2)
      as [(_ & _ & Hov) | [(He & _) | (_ & Hdt & _)]];
      [exact Hov | discriminate He | vm_compute in Hdt; discriminate Hdt].
Defined.

(** X6: in binary64, with np.sin returning a numpy.float64, a call of step
    completes exactly when [v**2], [w_e**2] and [sample_time**2] do not end
    in OverflowError and the slip ratio does not divide Python numbers by a
    zero v.  Nothing else matters: not the throttle, not the angle, and not
    J_e or m, whose divisions have a numpy.float64 numerator and give inf or
    nan when they are 0. *)
Theorem X6_completes_iff (L : Libm pyfloat) (self : Vehicle pyfloat)
  (throttle alpha : pyfloat) :
  is_numpy (np_sin alpha) = true ->
  completed (step self throttle alpha)
  = negb (num_pow2_raises (v self) || num_pow2_raises (w_e self)
          || slip_raises self || num_pow2_raises (sample_time self)).
Proof.
  intros Hsin.
  pose proof (engine_division L self throttle alpha Hsin) as HJ.
  pose proof (slip_binary64 self) as Hslip.
  destruct (step self throttle alpha) as [self' | e self'] eqn:Hstep;
    cbn [completed].
  - destruct (step_Done_clean _ _ _ _ Hstep) as (Hov & How & Hdt & s & Hs).
    rewrite Hov, How, Hdt. rewrite Hs in Hslip.
    destruct (slip_raises self); [discriminate | reflexivity].
  - destruct (step_Raised_cases _ _ _ _ _ Hstep)
      as [(_ & _ & [Hov | How])
         | [(_ & _ & Hnone)
           | [(q & _ & _ & _ & [Hs | (s & _ & Hnone)])
             | (_ & _ & _ & _ & _ & _ & _ & Hdt & _)]]].
    + rewrite Hov. reflexivity.
    + rewrite How, orb_true_r. reflexivity.
    + rewrite HJ in Hnone. discriminate.
    + rewrite Hs in Hslip.
      destruct (slip_raises self); [| discriminate].
      rewrite orb_true_r. reflexivity.
    + rewrite (mass_division L self alpha _ Hsin) in Hnone. discriminate.
    + rewrite Hdt, orb_true_r. reflexivity.
Qed.

(** An object with J_e = 0 and m = 0 completes its call; a fresh object
    whose v is set to the Python float 2.0**600 does not. *)
Lemma X6_witness :
  completed
    (step (L := series_libm)
       (mkVehicle (num_int 400) (num_lit 1 10) (num_lit (-2) 10000)
          (num_lit 35 100) (num_lit 3 10) (num_int 0) (num_int 0)
          (num_lit 981 100) (num_lit 136 100) (num_lit 1 100)
          (num_int 10000) (num_int 10000)
          (num_int 0) (num_int 5) (num_int 0) (num_int 100) (num_int 0)
          (num_lit 1 100))
       (num_lit 2 10) (num_lit 1 10))
  = true /\
  completed
    (step (L := series_libm) (set_v Vehicle_init (python (FloatOps.Z.ldexp PrimFloat.one 600)))
       (num_lit 2 10) (num_lit 1 10))
  = false.
Proof.
  split.
  - exact (eq_trans
             (X6_completes_iff series_libm
                (mkVehicle (num_int 400) (num_lit 1 10) (num_lit (-2) 10000)
                   (num_lit 35 100) (num_lit 3 10) (num_int 0) (num_int 0)
                   (num_lit 981 100) (num_lit 136 100) (num_lit 1 100)
                   (num_int 10000) (num_int 10000)
                   (num_int 0) (num_int 5) (num_int 0) (num_int 100) (num_int 0)
                   (num_lit 1 100))
                (num_lit 2 10) (num_lit 1 10) eq_refl)
             eq_refl).
  - exact (eq_trans
             (X6_completes_iff series_libm
                (set_v Vehicle_init (python (FloatOps.Z.ldexp PrimFloat.one 600)))
                (num_lit 2 10) (num_lit 1 10) eq_refl)
             eq_refl).
Defined.

Lemma steps_complete (L : Libm pyfloat) (inputs : list (pyfloat * pyfloat)) :
  (forall y, is_numpy (np_sin y) = true) ->
  forall self : Vehicle pyfloat,
    params_of self = params_of Vehicle_init ->
    safe_state self ->
    exists last,
      steps self inputs = Done last /\
      params_of last = params_of Vehicle_init /\
      (inputs <> [] -> all_numpy last).
Proof.
  intros Hsin.
  induction inputs as [| [throttle alpha] rest IH]; intros self Hp Hv.
  - exists self. split; [reflexivity |]. split; [exact Hp |]. intros H. now elim H.
  - destruct (step_completes L self throttle alpha Hp (Hsin alpha) Hv)
      as (self' & Hstep & Hp' & Hnp).
    destruct (IH self' Hp' (all_numpy_safe _ Hnp)) as (last & Hrun & Hpl & Hnl).
    exists last. cbn [steps]. rewrite Hstep.
    split; [exact Hrun |]. split; [exact Hpl |].
    intros _. destruct rest as [| p rest'].
    + cbn [steps] in Hrun. injection Hrun as <-. exact Hnp.
    + apply Hnl. discriminate.
Qed.

(** X13: in binary64, with np.sin returning numpy.float64, a run of step calls
    never raises, whatever the throttles and angles are (nan and inf
    included), when it starts on a fresh or reset object or on an object with
    the constructor's parameters whose state variables are numpy.float64
    (as every completed call leaves them); after the first call every state
    variable is a numpy.float64. *)
Theorem X13_runs_never_raise (L : Libm pyfloat) (inputs : list (pyfloat * pyfloat))
  (self : Vehicle pyfloat) :
  (forall y, is_numpy (np_sin y) = true) ->
  self = Vehicle_init \/
  (params_of self = params_of Vehicle_init /\ all_numpy self) ->
  exists last,
    steps self inputs = Done last /\
    params_of last = params_of Vehicle_init /\
    (inputs <> [] -> all_numpy last).
Proof.
  intros Hsin [-> | [Hp Hnp]].
  - exact (steps_complete L inputs Hsin Vehicle_init eq_refl Vehicle_init_safe).
  - exact (steps_complete L inputs Hsin self Hp (all_numpy_safe _ Hnp)).
Qed.

Lemma X13_witness :
  exists last,
    steps (L := series_libm) Vehicle_init
      [(numpy PrimFloat.nan, numpy PrimFloat.infinity);
       (num_lit 2 10, num_int 0)]
    = Done last /\
    params_of last = params_of Vehicle_init /\
    ([(numpy PrimFloat.nan, numpy PrimFloat.infinity);
      (num_lit 2 10, num_int 0)] <> [] -> all_numpy last).
Proof.
  exact (X13_runs_never_raise series_libm _ Vehicle_init (fun y => eq_refl)
           (or_introl eq_refl)).
Defined.

Lemma X11_witness :
  exists last : Vehicle pyfloat,
    steps (L := series_libm) Vehicle_init
      (repeat (num_lit 2 10, num_int 0) constant_len) = Done last /\
    cell5 (L := series_libm)
    = Done (mkConstantRun last (np_arange constant_len sample_time_global)
              (map (fun p => num_float64 (snd p))
                 (removelast
                    (trajectory (L := series_libm) Vehicle_init
                       (repeat (num_lit 2 10, num_int 0) constant_len))))).
Proof.
  destruct (steps_complete series_libm
              (repeat (num_lit 2 10, num_int 0) constant_len)
              (fun y => eq_refl) Vehicle_init eq_refl Vehicle_init_safe)
    as (last & Hrun & _).
  exists last. split; [exact Hrun |].
  exact (X11_cell5_records_velocities (L := series_libm) last Hrun).
Defined.

(** X16: in binary64, with np.sin returning numpy.float64, cell 11 never
    raises when [model] has the constructor's parameters, whatever state the
    earlier cells left it in: the reset makes the state the constructor's, the
    arrays stay as they were, and (when t_data is not empty) the model ends
    with numpy.float64 state variables. *)
Theorem X16_cell11_never_raises (L : Libm pyfloat) (nb : Notebook pyfloat) :
  (forall y, is_numpy (np_sin y) = true) ->
  params_of (model nb) = params_of Vehicle_init ->
  exists last,
    cell11 nb = Done (set_model nb last) /\
    params_of last = params_of Vehicle_init /\
    (t_data nb <> [] -> all_numpy last).
Proof.
  intros Hsin Hp.
  rewrite cell11_run, (reset_constructed (model nb) Hp).
  destruct (steps_complete L (repeat (num_int 0, num_int 0) (length (t_data nb)))
              Hsin Vehicle_init eq_refl Vehicle_init_safe)
    as (last & Hrun & Hpl & Hnp).
  exists last. rewrite Hrun.
  split; [reflexivity |]. split; [exact Hpl |].
  intros Hne. apply Hnp.
  destruct (t_data nb); [now elim Hne | discriminate].
Qed.

Lemma X16_witness :
  exists last,
    cell11 (L := series_libm)
      (mkNotebook (set_v Vehicle_init (numpy PrimFloat.zero))
         [numpy PrimFloat.zero; numpy PrimFloat.one] [] [] [])
    = Done (set_model
              (mkNotebook (set_v Vehicle_init (numpy PrimFloat.zero))
                 [numpy PrimFloat.zero; numpy PrimFloat.one] [] [] [])
              last) /\
    params_of last = params_of Vehicle_init /\
    (t_data
       (mkNotebook (set_v Vehicle_init (numpy PrimFloat.zero))
          [numpy PrimFloat.zero; numpy PrimFloat.one] [] [] [])
     <> [] -> all_numpy last).
Proof.
  exact (X16_cell11_never_raises series_libm
           (mkNotebook (set_v Vehicle_init (numpy PrimFloat.zero))
              [numpy PrimFloat.zero; numpy PrimFloat.one] [] [] [])
           (fun y => eq_refl) eq_refl).
Defined.

(** The loop of cell 7 without its arrays never stops early. *)
Lemma samples_complete (s1 s2 s0 : pyfloat) :
  is_numpy s1 = true -> is_numpy s2 = true -> is_numpy s0 = true ->
  forall (throttles : list pyfloat) (self : Vehicle pyfloat),
    params_of self = params_of Vehicle_init ->
    safe_state self ->
    exists xs vs last,
      samples s1 s2 s0 self throttles = Some (xs, vs, last) /\
      length xs = length throttles /\ length vs = length throttles /\
      params_of last = params_of Vehicle_init /\
      (throttles <> [] ->
       getitem xs 0 = Some (num_float64 (x self)) /\
       getitem vs 0 = Some (num_float64 (v self)) /\
       all_numpy last).
Proof.
  intros H1 H2 H0.
  induction throttles as [| throttle rest IH]; intros self Hp Hv.
  - exists [], [], self.
    split; [reflexivity |]. split; [reflexivity |]. split; [reflexivity |].
    split; [exact Hp |]. intros Hne. now elim Hne.
  - cbn [samples].
    set (sin_alpha := if num_lt (x self) (num_int 60) then s1
                      else if num_lt (x self) (num_int 150) then s2 else s0).
    assert (Hsin : is_numpy sin_alpha = true).
    { unfold sin_alpha. destruct (num_lt (x self) (num_int 60)); [exact H1 |].
      destruct (num_lt (x self) (num_int 150)); assumption. }
    destruct (step_completes (sine_given pyfloat) self throttle sin_alpha Hp Hsin Hv)
      as (self' & Hstep & Hp' & Hnp).
    unfold step_sine. rewrite Hstep.
    destruct (IH self' Hp' (all_numpy_safe _ Hnp))
      as (xs & vs & last & Hs & Hlx & Hlv & Hpl & Hhead).
    rewrite Hs.
    exists (num_float64 (x self) :: xs), (num_float64 (v self) :: vs), last.
    split; [reflexivity |].
    split; [cbn [length]; now rewrite Hlx |].
    split; [cbn [length]; now rewrite Hlv |].
    split; [exact Hpl |].
    intros _. split; [reflexivity |]. split; [reflexivity |].
    destruct rest as [| t rest'].
    + cbn [samples] in Hs. injection Hs as _ _ <-. exact Hnp.
    + apply Hhead. discriminate.
Qed.

Lemma throttle_values_nonempty : throttle_values <> [].
Proof.
  intros H. pose proof throttle_values_length as Hl. rewrite H in Hl. discriminate.
Qed.

Lemma combine_columns (A B : Type) (l1 : list A) :
  forall l2 : list B,
    length l1 = length l2 ->
    map fst (combine l1 l2) = l1 /\ map snd (combine l1 l2) = l2 /\
    length (combine l1 l2) = length l1.
Proof.
  induction l1 as [| h1 t1 IH]; intros [| h2 t2] Hlen; try discriminate.
  - repeat split.
  - cbn in Hlen. injection Hlen as Hlen.
    destruct (IH t2 Hlen) as (Hf & Hs & Hl).
    cbn. rewrite Hf, Hs, Hl. repeat split.
Qed.

Section AnyNumpy.
Context {L : Libm pyfloat}.
Hypothesis sin_is_numpy : forall y, is_numpy (np_sin y) = true.

Lemma cell7_outcome (model0 : Vehicle pyfloat) :
  params_of model0 = params_of Vehicle_init ->
  exists xs vs last,
    cell7 model0
    = Done (mkNotebook last throttle_values xs vs
              (np_arange arange_len sample_time_global)) /\
    length xs = 2000%nat /\ length vs = 2000%nat /\
    params_of last = params_of Vehicle_init /\
    getitem xs 0 = Some (numpy PrimFloat.zero) /\
    getitem vs 0 = Some (num_float64 (num_int 5)) /\
    all_numpy last.
Proof.
  intros Hp.
  destruct (samples_complete _ _ _
              (sin_is_numpy (np_arctan three_sixtieths))
              (sin_is_numpy (np_arctan (num_lit 1 10)))
              (sin_is_numpy (num_int 0))
              throttle_values Vehicle_init eq_refl Vehicle_init_safe)
    as (xs & vs & last & Hs & Hlx & Hlv & Hpl & Hhead).
  destruct (Hhead throttle_values_nonempty) as (Hx0 & Hv0 & Hnp).
  exists xs, vs, last.
  split.
  - rewrite (cell7_unfold model0 three_sixtieths throttle_values
               three_sixtieths_value
               (throttle_profile_any_model Vehicle_init model0 throttle_values
                  throttle_profile_value)).
    rewrite (reset_constructed model0 Hp).
    apply drive_from_start.
    + rewrite np_zeros_like_length, np_arange_length, throttle_values_length.
      reflexivity.
    + rewrite np_zeros_like_length, np_arange_length, throttle_values_length.
      reflexivity.
    + exact Hs.
  - rewrite Hlx, Hlv, throttle_values_length.
    split; [reflexivity |]. split; [reflexivity |]. split; [exact Hpl |].
    split; [exact Hx0 |]. split; [exact Hv0 | exact Hnp].
Qed.

End AnyNumpy.

(** X14: in binary64, with np.sin returning numpy.float64 (whatever its
    values and those of np.arctan are), cell 7 never raises when [model] has
    the constructor's parameters: it ends with 2000 recorded positions and
    velocities, the first of them the reset values 0 and 5, with t_data
    holding the throttle profile, the model's parameters unchanged and its
    state variables numpy.float64. *)
Theorem X14_cell7_never_raises (L : Libm pyfloat) (model0 : Vehicle pyfloat) :
  (forall y, is_numpy (np_sin y) = true) ->
  params_of model0 = params_of Vehicle_init ->
  exists nb,
    cell7 model0 = Done nb /\
    t_data nb = throttle_values /\
    length (x_data nb) = 2000%nat /\ length (v1_data nb) = 2000%nat /\
    getitem (x_data nb) 0 = Some (numpy PrimFloat.zero) /\
    getitem (v1_data nb) 0 = Some (num_float64 (num_int 5)) /\
    params_of (model nb) = params_of Vehicle_init /\
    all_numpy (model nb).
Proof.
  intros Hsin Hp.
  destruct (cell7_outcome Hsin model0 Hp)
    as (xs & vs & last & Hrun & Hlx & Hlv & Hpl & Hx0 & Hv0 & Hnp).
  eexists. split; [exact Hrun |].
  cbn [t_data x_data v1_data model].
  split; [reflexivity |]. split; [exact Hlx |]. split; [exact Hlv |].
  split; [exact Hx0 |]. split; [exact Hv0 |]. split; [exact Hpl | exact Hnp].
Qed.

Lemma X14_witness :
  exists nb,
    cell7 (L := series_libm) Vehicle_init = Done nb /\
    t_data nb = throttle_values /\
    length (x_data nb) = 2000%nat /\ length (v1_data nb) = 2000%nat /\
    getitem (x_data nb) 0 = Some (numpy PrimFloat.zero) /\
    getitem (v1_data nb) 0 = Some (num_float64 (num_int 5)) /\
    params_of (model nb) = params_of Vehicle_init /\
    all_numpy (model nb).
Proof.
  exact (X14_cell7_never_raises series_libm Vehicle_init (fun y => eq_refl) eq_refl).
Defined.

Lemma throttle_values_head :
  getitem throttle_values 0 = Some (num_float64 (num_lit 2 10)) /\
  getitem (np_arange arange_len sample_time_global) 0
  = Some (numpy PrimFloat.zero).
Proof. vm_compute. split; reflexivity. Qed.

(** X15: the rows cell 9 hands to np.savetxt after cell 7 pair each position
    with the throttle of its sample, not with its time: t_data holds the
    throttle profile by then, so row 0 is (0.2, 0) while the time axis
    ti_data starts at 0.  There are 2000 rows, and the stacking never fails. *)
Theorem X15_saved_rows_pair_throttle_with_position
  (L : Libm pyfloat) (model0 : Vehicle pyfloat) :
  (forall y, is_numpy (np_sin y) = true) ->
  params_of model0 = params_of Vehicle_init ->
  exists nb rows,
    cell7 model0 = Done nb /\
    cell9 nb = Some rows /\
    length rows = 2000%nat /\
    map fst rows = throttle_values /\
    map snd rows = x_data nb /\
    nth_error rows 0 = Some (num_float64 (num_lit 2 10), numpy PrimFloat.zero) /\
    getitem (ti_data nb) 0 = Some (numpy PrimFloat.zero).
Proof.
  intros Hsin Hp.
  destruct (cell7_outcome Hsin model0 Hp)
    as (xs & vs & last & Hrun & Hlx & Hlv & Hpl & Hx0 & Hv0 & Hnp).
  assert (Hlen : length throttle_values = length xs)
    by (rewrite Hlx; exact throttle_values_length).
  destruct (combine_columns _ _ throttle_values xs Hlen) as (Hf & Hs & Hl).
  exists (mkNotebook last throttle_values xs vs
            (np_arange arange_len sample_time_global)),
         (combine throttle_values xs).
  split; [exact Hrun |].
  unfold cell9, vstack_T. cbn [t_data x_data ti_data].
  rewrite Hlen, Nat.eqb_refl.
  split; [reflexivity |].
  split; [rewrite Hl; exact throttle_values_length |].
  split; [exact Hf |]. split; [exact Hs |].
  split; [| exact (proj2 throttle_values_head)].
  pose proof (proj1 throttle_values_head) as Ht0.
  unfold getitem in Ht0, Hx0.
  destruct throttle_values as [| t0 ts]; [discriminate |].
  destruct xs as [| x0 xs']; [discriminate |].
  cbn in Ht0, Hx0 |- *. injection Ht0 as ->. injection Hx0 as ->. reflexivity.
Qed.

Lemma X15_witness :
  exists nb rows,
    cell7 (L := series_libm) Vehicle_init = Done nb /\
    cell9 nb = Some rows /\
    length rows = 2000%nat /\
    map fst rows = throttle_values /\
    map snd rows = x_data nb /\
    nth_error rows 0 = Some (num_float64 (num_lit 2 10), numpy PrimFloat.zero) /\
    getitem (ti_data nb) 0 = Some (numpy PrimFloat.zero).
Proof.
  exact (X15_saved_rows_pair_throttle_with_position series_libm Vehicle_init
           (fun y => eq_refl) eq_refl).
Defined.

End Binary64Extras.
